(** * 10kticketstat: a shallow embedding of [index.js]

    The script downloads every time entry of a 10000ft project page by
    page, sums the hours per ticket identifier found in the notes, and
    writes the table as CSV.  This file embeds the functions of
    [index.js] as Rocq functions and proves properties of them.

    Conventions of the embedding.
    - JavaScript numbers are IEEE 754 binary64 values: a [number] is a
      primitive float, and the arithmetic operators are the float
      operations, which round as the language does.
    - Strings are Rocq strings (sequences of 8-bit characters).
    - The network, the clock, the time zone, the file system, the
      console and the regular-expression engine are an explicit
      environment: a script of settled requests that the collector
      consumes, and a trace of the effects it performs. *)

From Stdlib Require Import QArith Qcanon ZArith Ascii String List Lia DecimalString.
From Stdlib Require DecimalZ.
From Stdlib Require Floats.
From stdpp Require Import gmap strings list.

Local Open Scope string_scope.
Local Open Scope Z_scope.

(** ** JavaScript values *)

Module Js.

(** A JavaScript number: a double. *)
Definition number : Type := PrimFloat.float.

Definition NaN : number := PrimFloat.nan.
Definition Infinity : number := PrimFloat.infinity.

(** The values that occur in the parsed rate-limit object. *)
Inductive value : Type :=
| Undefined
| Str (s : string)
| Num (n : number).

(** An integer as an unrounded binary number. *)
Definition integer (z : Z) : SpecFloat.spec_float :=
  match z with
  | Z0 => SpecFloat.S754_zero false
  | Zpos p => SpecFloat.S754_finite false p 0
  | Zneg p => SpecFloat.S754_finite true p 0
  end.

(** The double nearest to a rational, ties to the even mantissa; beyond
    the largest double it is an infinity.  This is the value of a
    numeric literal. *)
Definition ofQ (q : Q) : number :=
  FloatOps.SF2Prim
    (SpecFloat.SFdiv FloatOps.prec FloatOps.emax
       (integer (Qnum q)) (integer (Zpos (Qden q)))).

Definition ofZ (z : Z) : number := ofQ (inject_Z z).

(** [Number.isNaN] *)
Definition isNaN (n : number) : bool := PrimFloat.is_nan n.

(** [a + b], [a * b], [a / b] and [a - b] on numbers. *)
Definition add (a b : number) : number := PrimFloat.add a b.
Definition mul (a b : number) : number := PrimFloat.mul a b.
Definition div (a b : number) : number := PrimFloat.div a b.
Definition sub (a b : number) : number := PrimFloat.sub a b.

(** *** [Number(string)]: the StringToNumber grammar

    White space is the white space of ASCII; the value of a literal is
    the double nearest to the number written. *)

Definition isWhiteSpace (c : ascii) : bool :=
  let n := nat_of_ascii c in
  ((n =? 32) || (n =? 9) || (n =? 10) || (n =? 11) || (n =? 12) || (n =? 13))%nat.

Fixpoint trimStart (s : string) : string :=
  match s with
  | String c s' => if isWhiteSpace c then trimStart s' else s
  | EmptyString => EmptyString
  end.

Fixpoint trimEnd (s : string) : string :=
  match s with
  | EmptyString => EmptyString
  | String c s' =>
      match trimEnd s' with
      | EmptyString => if isWhiteSpace c then EmptyString else String c EmptyString
      | t => String c t
      end
  end.

Definition trim (s : string) : string := trimEnd (trimStart s).

(** The value of a digit in the given base, if it is one. *)
Definition digitValue (base : Z) (c : ascii) : option Z :=
  let n := Z.of_nat (nat_of_ascii c) in
  let v := if (48 <=? n) && (n <=? 57) then Some (n - 48)
           else if (97 <=? n) && (n <=? 102) then Some (n - 87)
           else if (65 <=? n) && (n <=? 70) then Some (n - 55)
           else None in
  match v with
  | Some d => if d <? base then Some d else None
  | None => None
  end.

(** Reads the longest prefix of digits: their value, how many there are,
    and the rest of the string. *)
Fixpoint readDigits (base : Z) (s : string) (acc : Z) (count : nat)
  : Z * nat * string :=
  match s with
  | String c s' =>
      match digitValue base c with
      | Some d => readDigits base s' (acc * base + d) (S count)
      | None => (acc, count, s)
      end
  | EmptyString => (acc, count, s)
  end.

(** A string made of one or more digits of the base, and nothing else. *)
Definition readInteger (base : Z) (s : string) : option Z :=
  match readDigits base s 0 0 with
  | (v, S _, EmptyString) => Some v
  | _ => None
  end.

(** ExponentPart, or nothing: the decimal exponent. *)
Definition readExponent (s : string) : option Z :=
  match s with
  | EmptyString => Some 0
  | String c s' =>
      if (Ascii.eqb c "e" || Ascii.eqb c "E")%bool then
        match s' with
        | String "+" d => readInteger 10 d
        | String "-" d => Z.opp <$> readInteger 10 d
        | d => readInteger 10 d
        end
      else None
  end.

(** StrUnsignedDecimalLiteral without [Infinity]: the number written. *)
Definition readUnsignedDecimal (s : string) : option Q :=
  let '(ip, ni, r1) := readDigits 10 s 0 0 in
  let '(fp, nf, r2) :=
    match r1 with
    | String "." r => readDigits 10 r 0 0
    | _ => (0, O, r1)
    end in
  match ni, nf with
  | O, O => None
  | _, _ =>
      match readExponent r2 with
      | Some e =>
          Some (Qred (inject_Z (ip * 10 ^ Z.of_nat nf + fp)
                      * Qpower (inject_Z 10) (e - Z.of_nat nf)))
      | None => None
      end
  end.

Definition readUnsigned (s : string) : number :=
  if String.eqb s "Infinity" then Infinity
  else match readUnsignedDecimal s with
       | Some q => ofQ q
       | None => NaN
       end.

Definition negate (n : number) : number := PrimFloat.opp n.

(** [Number(s)] for a string [s]. *)
Definition StringToNumber (s : string) : number :=
  match trim s with
  | EmptyString => ofZ 0
  | String "0" (String p d) as t =>
      let radix :=
        if (Ascii.eqb p "x" || Ascii.eqb p "X")%bool then Some 16
        else if (Ascii.eqb p "o" || Ascii.eqb p "O")%bool then Some 8
        else if (Ascii.eqb p "b" || Ascii.eqb p "B")%bool then Some 2
        else None in
      match radix with
      | Some b => match readInteger b d with
                  | Some v => ofZ v
                  | None => NaN
                  end
      | None => readUnsigned t
      end
  | String "+" d => readUnsigned d
  | String "-" d => negate (readUnsigned d)
  | t => readUnsigned t
  end.

(** [Number(v)] where [v] is a string or [undefined]. *)
Definition Number (v : option string) : number :=
  match v with
  | None => NaN
  | Some s => StringToNumber s
  end.

(** ToNumber on the values of the rate-limit object. *)
Definition ToNumber (v : value) : number :=
  match v with
  | Undefined => NaN
  | Str s => StringToNumber s
  | Num n => n
  end.

(** A string, or [undefined], as a value. *)
Definition ofString (v : option string) : value :=
  match v with
  | None => Undefined
  | Some s => Str s
  end.

(** [o[k] = v] on a plain object.  Assigning a primitive to
    [__proto__] goes to the inherited setter, which ignores it. *)
Definition set (o : gmap string value) (k : string) (v : value)
  : gmap string value :=
  if decide (k = "__proto__") then o else <[k := v]> o.

(** [o.k] for a key that [Object.prototype] does not define. *)
Definition get (o : gmap string value) (k : string) : value :=
  default Undefined (o !! k).

(** [s.replace(/[...]/g, '')]: drops every character of the class. *)
Fixpoint removeAll (class : ascii -> bool) (s : string) : string :=
  match s with
  | EmptyString => EmptyString
  | String c s' =>
      if class c then removeAll class s' else String c (removeAll class s')
  end.

(** [s.split(sep)] for a separator that is not empty.  [skip] counts the
    characters of a separator still to pass over; [cur] is the piece
    being read. *)
Fixpoint splitFrom (sep : string) (skip : nat) (cur s : string)
  : list string :=
  match s with
  | EmptyString => [cur]
  | String c s' =>
      match skip with
      | S k => splitFrom sep k cur s'
      | O =>
          if String.prefix sep s
          then cur :: splitFrom sep (String.length sep - 1) EmptyString s'
          else splitFrom sep O (cur ++ String c EmptyString) s'
      end
  end.

Definition split (sep s : string) : list string :=
  splitFrom sep O EmptyString s.

End Js.

(** ** Constants of the script *)

Definition entriesPerChunk : Z := 100.
(** The source text of the default ticket pattern; its abstract syntax
    is [defaultTicketPattern] below. *)
Definition defaultTicketPatternSource : string := "[A-Z]+-\d+".
Definition defaultFileName : string := "10kticketstat.csv".

(** ** The rate-limit header *)

Definition isBraceOrColon (c : ascii) : bool :=
  (Ascii.eqb c "{" || Ascii.eqb c "}" || Ascii.eqb c ":")%bool.

(** One step of the [reduce]: a piece [key=>value] already split at
    [=>].  Destructuring takes the first two elements; a missing one is
    [undefined]. *)
Definition headerReducer (accumulator : gmap string Js.value)
    (keyValue : list string) : gmap string Js.value :=
  let key := default "undefined" (keyValue !! 0%nat) in
  let value := keyValue !! 1%nat in
  let numberValue := Js.Number value in
  Js.set accumulator key
    (if Js.isNaN numberValue then Js.ofString value else Js.Num numberValue).

Definition parse10KResponseHeader (responseHeader : string)
  : gmap string Js.value :=
  foldl headerReducer ∅
    (map (Js.split "=>")
       (Js.split ", " (Js.removeAll isBraceOrColon responseHeader))).

(** [(rateInfo.period * 1000) / rateInfo.limit] *)
Definition minimumRequestIntervalMs (rateInfo : gmap string Js.value)
  : Js.number :=
  Js.div (Js.mul (Js.ToNumber (Js.get rateInfo "period")) (Js.ofZ 1000))
         (Js.ToNumber (Js.get rateInfo "limit")).

(** ** Dates

    The time value of a [Date] is a number of milliseconds since the
    epoch, or [NaN] for an Invalid Date ([None] here).  The calendar
    functions are those of the language definition. *)

Module Date.

Definition msPerDay : Z := 86400000.

Definition Day (t : Z) : Z := t / msPerDay.

Definition DaysInYear (y : Z) : Z :=
  if negb (y mod 4 =? 0) then 365
  else if negb (y mod 100 =? 0) then 366
  else if negb (y mod 400 =? 0) then 365
  else 366.

Definition DayFromYear (y : Z) : Z :=
  365 * (y - 1970) + (y - 1969) / 4 - (y - 1901) / 100 + (y - 1601) / 400.

(** The year a day number falls in: the largest [y] with
    [DayFromYear y <= d], found through the cycles of 400, 100, 4 and 1
    years counted from 1 January 1601. *)
Definition YearFromDay (d : Z) : Z :=
  let n := d - DayFromYear 1601 in
  let n400 := n / 146097 in
  let r400 := n mod 146097 in
  let n100 := Z.min (r400 / 36524) 3 in
  let r100 := r400 - n100 * 36524 in
  let n4 := r100 / 1461 in
  let r4 := r100 mod 1461 in
  let n1 := Z.min (r4 / 365) 3 in
  1601 + 400 * n400 + 100 * n100 + 4 * n4 + n1.

Definition YearFromTime (t : Z) : Z := YearFromDay (Day t).

(** One for a leap year, zero for another year. *)
Definition leapDays (y : Z) : Z := if DaysInYear y =? 366 then 1 else 0.

Definition InLeapYear (t : Z) : Z := leapDays (YearFromTime t).

Definition DayWithinYear (t : Z) : Z := Day t - DayFromYear (YearFromTime t).

Definition MonthFromTime (t : Z) : Z :=
  let d := DayWithinYear t in
  let leap := InLeapYear t in
  if d <? 31 then 0
  else if d <? 59 + leap then 1
  else if d <? 90 + leap then 2
  else if d <? 120 + leap then 3
  else if d <? 151 + leap then 4
  else if d <? 181 + leap then 5
  else if d <? 212 + leap then 6
  else if d <? 243 + leap then 7
  else if d <? 273 + leap then 8
  else if d <? 304 + leap then 9
  else if d <? 334 + leap then 10
  else 11.

Definition DateFromTime (t : Z) : Z :=
  let d := DayWithinYear t in
  let leap := InLeapYear t in
  match MonthFromTime t with
  | 0 => d + 1
  | 1 => d - 30
  | 2 => d - 58 - leap
  | 3 => d - 89 - leap
  | 4 => d - 119 - leap
  | 5 => d - 150 - leap
  | 6 => d - 180 - leap
  | 7 => d - 211 - leap
  | 8 => d - 242 - leap
  | 9 => d - 272 - leap
  | 10 => d - 303 - leap
  | _ => d - 333 - leap
  end.

(** Days of the year before the first of a month (January is 0). *)
Definition daysBeforeMonth (leap month : Z) : Z :=
  match month with
  | 0 => 0
  | 1 => 31
  | 2 => 59 + leap
  | 3 => 90 + leap
  | 4 => 120 + leap
  | 5 => 151 + leap
  | 6 => 181 + leap
  | 7 => 212 + leap
  | 8 => 243 + leap
  | 9 => 273 + leap
  | 10 => 304 + leap
  | _ => 334 + leap
  end.

Definition MakeDay (year month date : Z) : Z :=
  let ym := year + month / 12 in
  let mn := month mod 12 in
  DayFromYear ym + daysBeforeMonth (leapDays ym) mn + date - 1.

Definition MakeTime (hour min sec ms : Z) : Z :=
  hour * 3600000 + min * 60000 + sec * 1000 + ms.

Definition MakeDate (day time : Z) : Z := day * msPerDay + time.

(** [TimeClip]: an instant further than 100 000 000 days from the epoch
    is no time value. *)
Definition TimeClip (t : Z) : option Z :=
  if Z.abs t <=? 8640000000000000 then Some t else None.

(** *** Reading a date-time string

    The date-time string format of the language definition: [YYYY],
    [YYYY-MM] or [YYYY-MM-DD], the year also as a sign and six digits;
    then nothing, or [T], [HH:mm], optionally [:ss], optionally a
    fraction of a second, and optionally [Z] or an offset [+HH:mm] or
    [-HH:mm].  A string without a time is in UTC, a string with a time
    and without [Z] or offset is in local time.  The fraction may have
    one to nine digits instead of three, which the engine allows.

    The language definition leaves two things to the implementation:
    the time zone, and what becomes of a string outside the format,
    for which the engine has a parser of its own that reads many other
    spellings.  Both are parameters here. *)

Record Host : Type := {
  (** The offset of local time from UTC, in milliseconds, at a time
      value of local time. *)
  localTZA : Z -> Z;
  (** The time value that the implementation gives to a string outside
      the format, if any. *)
  fallback : string -> option Z
}.

(** The fields of a date-time string, as written: the month is the
    calendar month, 1 to 12; [f_offset] is the offset from UTC in
    minutes, [None] for a string in local time. *)
Record fields : Type := Fields {
  f_year : Z; f_month : Z; f_day : Z;
  f_hour : Z; f_minute : Z; f_second : Z; f_ms : Z;
  f_offset : option Z
}.

(** Exactly [n] decimal digits. *)
Fixpoint digits (n : nat) (acc : Z) (s : string) : option (Z * string) :=
  match n with
  | O => Some (acc, s)
  | S n' =>
      match s with
      | String c s' =>
          match Js.digitValue 10 c with
          | Some d => digits n' (acc * 10 + d) s'
          | None => None
          end
      | EmptyString => None
      end
  end.

Definition expect (c : ascii) (s : string) : option string :=
  match s with
  | String c' s' => if Ascii.eqb c c' then Some s' else None
  | EmptyString => None
  end.

(** Four digits, or a sign and six digits; [-000000] is no year. *)
Definition readYear (s : string) : option (Z * string) :=
  match s with
  | String "+" s' => digits 6 0 s'
  | String "-" s' =>
      '(y, s'') ← digits 6 0 s';
      if y =? 0 then None else Some (- y, s'')
  | _ => digits 4 0 s
  end.

(** [-MM] and [-DD], each optional; what is left out is 1. *)
Definition readMonthDay (s : string) : option (Z * Z * string) :=
  match s with
  | String "-" s' =>
      '(mo, s'') ← digits 2 0 s';
      match s'' with
      | String "-" s3 => '(d, s4) ← digits 2 0 s3; Some (mo, d, s4)
      | _ => Some (mo, 1, s'')
      end
  | _ => Some (1, 1, s)
  end.

(** The digits of a fraction of a second, one to nine of them: their
    value and how many they are. *)
Definition readFraction (s : string) : option (Z * nat * string) :=
  match Js.readDigits 10 s 0 0 with
  | (_, O, _) => None
  | (v, n, s') => if (n <=? 9)%nat then Some (v, n, s') else None
  end.

(** [:ss] and the fraction, each optional. *)
Definition readSeconds (s : string) : option (Z * (Z * nat) * string) :=
  match s with
  | String ":" s' =>
      '(se, s'') ← digits 2 0 s';
      match s'' with
      | String "." s3 => '(v, n, s4) ← readFraction s3; Some (se, (v, n), s4)
      | _ => Some (se, (0, O), s'')
      end
  | _ => Some (0, (0, O), s)
  end.

(** The end of a string with a time: nothing (local time), [Z], or an
    offset of at most 23 hours and 59 minutes. *)
Definition readOffset (s : string) : option (option Z) :=
  match s with
  | EmptyString => Some None
  | String c s' =>
      let sign := if Ascii.eqb c "+" then Some 1
                  else if Ascii.eqb c "-" then Some (-1)
                  else None in
      match sign with
      | Some sg =>
          '(h, s'') ← digits 2 0 s';
          s3 ← expect ":" s'';
          '(mi, s4) ← digits 2 0 s3;
          match s4 with
          | EmptyString =>
              if (h <=? 23) && (mi <=? 59) then Some (Some (sg * (h * 60 + mi)))
              else None
          | _ => None
          end
      | None =>
          if Ascii.eqb c "Z" then
            match s' with
            | EmptyString => Some (Some 0)
            | _ => None
            end
          else None
      end
  end.

(** The fields of a string in the format.  The milliseconds are the
    first three digits of the fraction; at the hour 24 no digit of the
    fraction may differ from zero. *)
Definition readFields (s : string) : option fields :=
  '(y, s1) ← readYear s;
  '(mo, d, s2) ← readMonthDay s1;
  match s2 with
  | EmptyString => Some (Fields y mo d 0 0 0 0 (Some 0))
  | String c s3 =>
      if Ascii.eqb c "T" then
        '(h, s4) ← digits 2 0 s3;
        s5 ← expect ":" s4;
        '(mi, s6) ← digits 2 0 s5;
        '(se, (v, n), s7) ← readSeconds s6;
        offset ← readOffset s7;
        if (h =? 24) && negb (v =? 0) then None
        else Some (Fields y mo d h mi se (v * 1000 / 10 ^ Z.of_nat n) offset)
      else None
  end.

(** The element values the engine accepts: a day of the month up to
    31 whatever the month, and the hour 24 at [24:00:00.000]. *)
Definition legal (f : fields) : bool :=
  (1 <=? f_month f) && (f_month f <=? 12)
  && (1 <=? f_day f) && (f_day f <=? 31)
  && (0 <=? f_hour f)
  && (0 <=? f_minute f) && (f_minute f <=? 59)
  && (0 <=? f_second f) && (f_second f <=? 59)
  && (0 <=? f_ms f) && (f_ms f <=? 999)
  && ((f_hour f <=? 23)
      || ((f_hour f =? 24) && (f_minute f =? 0) && (f_second f =? 0)
          && (f_ms f =? 0))).

(** The time of day of the fields. *)
Definition timeOfDay (f : fields) : Z :=
  MakeTime (f_hour f) (f_minute f) (f_second f) (f_ms f).

(** The time value of the fields read in UTC. *)
Definition fieldsTime (f : fields) : Z :=
  MakeDate (MakeDay (f_year f) (f_month f - 1) (f_day f)) (timeOfDay f).

Section Parse.

Variable host : Host.

(** How far the fields are ahead of UTC, in milliseconds. *)
Definition offsetMs (f : fields) : Z :=
  match f_offset f with
  | Some minutes => minutes * 60000
  | None => localTZA host (fieldsTime f)
  end.

Definition timeValue (f : fields) : Z := fieldsTime f - offsetMs f.

(** The time value of [new Date(string)]: that of the fields for a
    string in the format with legal elements, and what the
    implementation makes of it for any other string. *)
Definition parse (s : string) : option Z :=
  match readFields s with
  | Some f => if legal f then TimeClip (timeValue f) else fallback host s
  | None => fallback host s
  end.

End Parse.

Definition getUTCFullYear (date : option Z) : option Z := YearFromTime <$> date.
Definition getUTCMonth (date : option Z) : option Z := MonthFromTime <$> date.
Definition getUTCDate (date : option Z) : option Z := DateFromTime <$> date.

End Date.

(** A calendar number inside a template literal; the [NaN] of an
    Invalid Date prints as such. *)
Definition show (n : option Z) : string :=
  match n with
  | Some z => NilZero.string_of_int (Z.to_int z)
  | None => "NaN"
  end.

Definition isoTo10KDate (host : Date.Host) (isoDateString : string)
  : string :=
  let date := Date.parse host isoDateString in
  show (Date.getUTCFullYear date) ++ "-" ++ show (Date.getUTCMonth date)
  ++ "-" ++ show (Date.getUTCDate date).

(** ** Regular expressions

    A pattern in abstract syntax, matched the way the language defines
    it: by backtracking, with continuations, leftmost alternative first
    and greedy repetition.  Reading the concrete syntax of a pattern,
    and refusing what is no pattern, is left to the engine: see
    [regExp] in the environment. *)

Module RegExp.

Inductive pattern : Type :=
| Empty
| Class (ranges : list (ascii * ascii))
| Seq (r1 r2 : pattern)
| Alt (r1 r2 : pattern)
| Star (r : pattern).

Definition Plus (r : pattern) : pattern := Seq r (Star r).
Definition Chr (c : ascii) : pattern := Class [(c, c)].

Definition inRange (c : ascii) (range : ascii * ascii) : bool :=
  ((nat_of_ascii (fst range) <=? nat_of_ascii c)
   && (nat_of_ascii c <=? nat_of_ascii (snd range)))%nat.

Definition inClass (ranges : list (ascii * ascii)) (c : ascii) : bool :=
  existsb (inRange c) ranges.

(** [matcher r s k]: match [r] at the start of [s] and hand what is left
    to the continuation [k]; its answer is what is left after the whole
    match.  A repetition gives up an iteration that consumed nothing. *)
Fixpoint matcher (r : pattern) (s : string)
    (k : string -> option string) {struct r} : option string :=
  match r with
  | Empty => k s
  | Class ranges =>
      match s with
      | String c s' => if inClass ranges c then k s' else None
      | EmptyString => None
      end
  | Seq r1 r2 => matcher r1 s (fun rest => matcher r2 rest k)
  | Alt r1 r2 =>
      match matcher r1 s k with
      | Some rest => Some rest
      | None => matcher r2 s k
      end
  | Star r' =>
      (fix repeat (fuel : nat) (s : string) {struct fuel} : option string :=
         match fuel with
         | O => k s
         | S fuel' =>
             match matcher r' s
                     (fun rest =>
                        if (String.length rest <? String.length s)%nat
                        then repeat fuel' rest else None) with
             | Some rest => Some rest
             | None => k s
             end
         end) (String.length s) s
  end.

(** The match that starts at the first character of [s], if there is
    one: its length. *)
Definition matchHere (r : pattern) (s : string) : option nat :=
  match matcher r s Some with
  | Some rest => Some (String.length s - String.length rest)%nat
  | None => None
  end.

(** [s.match(r)] with the [g] flag, from a position on: every match,
    left to right, the search resuming where the last match ended, or one
    character further when the match was empty.  [skip] counts the
    characters of the last match still to pass over. *)
Fixpoint matchAllFrom (r : pattern) (skip : nat) (s : string) : list string :=
  match skip with
  | S k =>
      match s with
      | String _ s' => matchAllFrom r k s'
      | EmptyString => []
      end
  | O =>
      match matchHere r s, s with
      | Some n, String _ s' =>
          String.substring 0 n s :: matchAllFrom r (n - 1) s'
      | Some _, EmptyString => [EmptyString]
      | None, String _ s' => matchAllFrom r O s'
      | None, EmptyString => []
      end
  end.

(** [s.match(new RegExp(r, 'g')) || []] *)
Definition matchAll (r : pattern) (s : string) : list string :=
  matchAllFrom r O s.

End RegExp.

(** [[A-Z]+-\d+] *)
Definition defaultTicketPattern : RegExp.pattern :=
  RegExp.Seq (RegExp.Plus (RegExp.Class [("A", "Z")]%char))
    (RegExp.Seq (RegExp.Chr "-") (RegExp.Plus (RegExp.Class [("0", "9")]%char))).

(** ** Aggregation *)

(** A time entry of the response: [hours] is a JSON number, [notes] a
    string, [null] or missing. *)
Record TimeEntry : Type := { hours : Js.number; notes : option string }.

(** A row [{ ticket, hours }] of the table; the field [hours] of a row is
    [stat_hours] here. *)
Record TicketStat : Type := { ticket : string; stat_hours : Js.number }.

(** The body of the [forEach]: [find] gives the first row of the ticket;
    the row is updated where it stands, or a new one is pushed. *)
Definition countTicket (hours : Js.number)
    (entryStatAccumulator : list TicketStat)
    (ticket' : string) : list TicketStat :=
  match list_find (fun entryStat => ticket entryStat = ticket')
          entryStatAccumulator with
  | Some (i, existingTicketStat) =>
      <[i := {| ticket := ticket existingTicketStat;
                stat_hours := Js.add (stat_hours existingTicketStat) hours |}]>
        entryStatAccumulator
  | None =>
      (entryStatAccumulator
         ++ [{| ticket := ticket'; stat_hours := hours |}])%list
  end.

(** [timeEntry.notes || ''] *)
Definition notesOrEmpty (timeEntry : TimeEntry) : string :=
  default "" (notes timeEntry).

Section Analyze.

(** The compiled expression: what [notes.match(ticketRegExp) || []]
    gives for each string. *)
Variable ticketRegExp : string -> list string.

Definition timeEntryReducer (entryStatAccumulator : list TicketStat)
    (timeEntry : TimeEntry) : list TicketStat :=
  let ticketsMatchedInEntry := ticketRegExp (notesOrEmpty timeEntry) in
  foldl (countTicket (hours timeEntry)) entryStatAccumulator
    ticketsMatchedInEntry.

Definition analyzeWith (timeEntries : list TimeEntry) : list TicketStat :=
  foldl timeEntryReducer [] timeEntries.

End Analyze.

(** [analyzeTimeEntries] for a pattern that the constructor accepts,
    given in abstract syntax; [run] below takes the compiled expression
    from the engine, which also decides whether the pattern is one. *)
Definition analyzeTimeEntries (timeEntries : list TimeEntry)
    (ticketPattern : RegExp.pattern) : list TicketStat :=
  analyzeWith (RegExp.matchAll ticketPattern) timeEntries.

(** ** The environment *)

(** The body of a successful response:
    [{ paging: { page, next }, data: [...] }]. *)
Record Paging : Type := { page : Z; next : option string }.

Record Response : Type := {
  headers : gmap string string;
  paging : Paging;
  data : list TimeEntry
}.

(** [error.response] of a request that the server answered outside 2xx. *)
Record ErrorResponse : Type := {
  status : Z;
  error_headers : gmap string string
}.

Inductive Error : Type :=
| RequestError (response : option ErrorResponse)
| TypeError (message : string)
| SyntaxError (pattern : string)
| WriteError (message : string).

(** How one [axios.get] settles, and what [Date.now()] reads while that
    attempt is handled. *)
Inductive Settled : Type :=
| Fulfilled (response : Response)
| Rejected (error : Error).

Record Turn : Type := { outcome : Settled; clock : Z }.

(** [config.params]; the field [page] is [page_param] here. *)
Record Params : Type := {
  from : option string;
  to : option string;
  page_param : string;
  per_page : Z
}.

Record Request : Type := {
  requestUrl : string;
  auth : string;
  params : Params
}.

(** The two places that call [sleep]. *)
Inductive Wait : Type := Advisory | Reset.

Inductive Effect : Type :=
| Get (request : Request)
| ConsoleLog (line : string)
| ConsoleError (error : Error)
| Sleep (site : Wait) (ms : Js.number)
| Stat (path : string)
| WriteRecords (path : string) (records : list TicketStat).

(** How an asynchronous function ends.  [Pending]: it awaits a request
    that the script of the environment does not settle. *)
Inductive Completion (A : Type) : Type :=
| Returned (a : A)
| Threw (error : Error)
| Pending.
Arguments Returned {A} a.
Arguments Threw {A} error.
Arguments Pending {A}.

(** A string in a condition: [undefined], [null] and [''] are false. *)
Definition truthy (s : option string) : bool :=
  match s with
  | Some (String _ _) => true
  | _ => false
  end.

Fixpoint endsWith (s : string) (c : ascii) : bool :=
  match s with
  | EmptyString => false
  | String c' EmptyString => Ascii.eqb c' c
  | String _ s' => endsWith s' c
  end.

(** [url.parse(link).query]: what follows the first [?], the fragment
    left out. *)
Definition urlQuery (link : string) : option string :=
  let noHash := default "" (Js.split "#" link !! 0%nat) in
  match Js.split "?" noHash with
  | _ :: q :: more => Some (fold_left (fun a b => a ++ "?" ++ b) more q)
  | _ => None
  end.

(** [querystring.parse(query).page] for a query that names [page] at
    most once and escapes nothing. *)
Definition queryPage (query : option string) : option string :=
  match query with
  | None => None
  | Some q =>
      let pairs := map (Js.split "=") (Js.split "&" q) in
      match filter (fun kv => kv !! 0%nat = Some "page") pairs with
      | (_ :: v :: more) :: _ =>
          Some (fold_left (fun a b => a ++ "=" ++ b) more v)
      | [_] :: _ => Some ""
      | _ => None
      end
  end.

(** The page named by a link to the next page. *)
Definition pageOfLink (link : string) : option string :=
  queryPage (urlQuery link).

(** The progress line of a page. *)
Definition chunkLog (paging : Paging) : Effect :=
  ConsoleLog ("Downloaded data chunk #" ++ show (Some (page paging))
              ++ " from 10K.").

(** ** The collector *)

Section Collector.

(** The time zone of the process and what the engine makes of a date
    string outside the format: see [Date.parse]. *)
Variable host : Date.Host.
Variable projectId : string.
Variable apiKey : string.
Variable apiUrl : string.
Variable startIsoDate : option string.
Variable endIsoDate : option string.

Definition requestFor (page : string) : Request :=
  let requestPath := "projects/" ++ projectId ++ "/time_entries" in
  {| requestUrl :=
       apiUrl ++ (if endsWith apiUrl "/" then "" else "/") ++ requestPath;
     auth := apiKey;
     params :=
       {| from := if truthy startIsoDate
                  then isoTo10KDate host <$> startIsoDate else None;
          to := if truthy endIsoDate
                then isoTo10KDate host <$> endIsoDate else None;
          page_param := page;
          per_page := entriesPerChunk |} |}.

(** Where the body of the function goes after the [try] statement:
    out of the function, or into the tail call. *)
Inductive Step : Type :=
| Finish (completion : Completion (list TimeEntry))
| Recur (nextPage : option string) (accumulatedEntries : list TimeEntry).

(** The [try] block once the request is fulfilled. *)
Definition onFulfilled (entryAccumulator : list TimeEntry)
    (response : Response) : list Effect * (Error + Step) :=
  let accumulatedEntries := (entryAccumulator ++ data response)%list in
  let log := chunkLog (paging response) in
  if negb (truthy (next (paging response))) then
    ([log], inr (Finish (Returned accumulatedEntries)))
  else
    match headers response !! "x-ratelimit-data" with
    | None =>
        ([log], inl (TypeError "Cannot read properties of undefined"))
    | Some header =>
        let rateInfo := parse10KResponseHeader header in
        let nextPage := pageOfLink (default "" (next (paging response))) in
        ([log; Sleep Advisory (minimumRequestIntervalMs rateInfo)],
         inr (Recur nextPage accumulatedEntries))
    end.

(** [!error.response || error.response.status !== 429] *)
Definition rethrown (error : Error) : bool :=
  match error with
  | RequestError (Some response) => negb (status response =? 429)
  | _ => true
  end.

Definition resetHeader (error : Error) : option string :=
  match error with
  | RequestError (Some response) =>
      error_headers response !! "X-RateLimit-Reset"
  | _ => None
  end.

(** The [catch] block. *)
Definition onError (page : string) (entryAccumulator : list TimeEntry)
    (nowUnixTime : Z) (error : Error) : list Effect * Step :=
  if rethrown error then ([], Finish (Threw error))
  else
    let resetUnixTime := Js.Number (resetHeader error) in
    let msToReset := Js.sub resetUnixTime (Js.ofZ nowUnixTime) in
    ([Sleep Reset msToReset], Recur (Some page) entryAccumulator).

(** One activation of the function up to its tail call. *)
Definition attempt (page : string) (entryAccumulator : list TimeEntry)
    (turn : Turn) : list Effect * Step :=
  let tried :=
    match outcome turn with
    | Fulfilled response => onFulfilled entryAccumulator response
    | Rejected error => ([], inl error)
    end in
  match tried with
  | (effects, inr step) => (effects, step)
  | (effects, inl error) =>
      let '(more, step) := onError page entryAccumulator (clock turn) error in
      ((effects ++ more)%list, step)
  end.

(** [getTimeEntries]; the parameter [page] defaults to ['1'] when it is
    [undefined].  Each activation sends one request and takes the next
    turn of the script. *)
Fixpoint getTimeEntries (script : list Turn) (page : option string)
    (entryAccumulator : list TimeEntry)
  : list Effect * Completion (list TimeEntry) :=
  let page := default "1" page in
  match script with
  | [] => ([Get (requestFor page)], Pending)
  | turn :: script' =>
      match attempt page entryAccumulator turn with
      | (effects, Finish completion) =>
          (Get (requestFor page) :: effects, completion)
      | (effects, Recur nextPage accumulatedEntries) =>
          let '(later, completion) :=
            getTimeEntries script' nextPage accumulatedEntries in
          ((Get (requestFor page) :: effects ++ later)%list, completion)
      end
  end.

End Collector.

(** ** Output path and the CSV file *)

(** What [fs.stat] gives for a path. *)
Inductive StatOutcome : Type :=
| Stats (isDirectory : bool)
| StatFails.

(** What is outside the script: the requests and the clock, the time
    zone, the regular-expression engine, the file system, [path.join],
    the terminal styling, the package version and the start date
    computed when the script is loaded.

    [regExp source] is [new RegExp(source, 'g')]: [None] when the source
    is no pattern and the constructor throws a SyntaxError, otherwise
    what [s.match(...) || []] gives for each string [s]. *)
Record World : Type := {
  script : list Turn;
  dateHost : Date.Host;
  regExp : string -> option (string -> list string);
  stat : string -> StatOutcome;
  join : string -> string -> string;
  writeFails : string -> option string;
  underline : string -> string;
  version : string;
  defaultStartIsoDate : string
}.

Definition defaultApiUrl : string := "https://api.10000ft.com/api/v1/".

Section Run.

Variable world : World.

Definition resolveOutputPath (userOutputPath : string)
  : list Effect * Completion string :=
  ([Stat userOutputPath],
   Returned
     match stat world userOutputPath with
     | Stats isDirectory =>
         if isDirectory then join world userOutputPath defaultFileName
         else userOutputPath
     | StatFails => userOutputPath
     end).

Definition saveStatisticsAsCsv (statistics : list TicketStat)
    (outputPath : string) : list Effect * Completion unit :=
  match writeFails world outputPath with
  | Some message => ([], Threw (WriteError message))
  | None => ([WriteRecords outputPath statistics], Returned tt)
  end.

(** The command line as [minimist] returns it, its values being
    strings: an option that is absent is [None], and an argument is the
    text that the script makes of it. *)
Record Argv : Type := {
  arg_v : bool;
  arg_version : bool;
  arg_h : bool;
  arg_help : bool;
  positional : list string;
  api_url : option string;
  start_iso_date : option string;
  end_iso_date : option string;
  ticket_pattern : option string
}.

(** How the process ends. *)
Inductive Ending : Type :=
| Exited (code : Z)
| Completed
| Waiting.

Definition requiredArgNames : list string :=
  ["projectId"; "outputPath"; "apiKey"].
Definition optionalArgNames : list string :=
  ["api-url"; "start-iso-date"; "end-iso-date"; "ticket-pattern"].

Definition joinWith (sep : string) (l : list string) : string :=
  match l with
  | [] => ""
  | x :: l' => fold_left (fun a b => a ++ sep ++ b) l' x
  end.

Definition orElse (a : option string) (b : string) : string :=
  if truthy a then default b a else b.

(** The [catch] of [run]. *)
Definition fail (effects : list Effect) (error : Error)
  : list Effect * Ending :=
  ((effects ++ [ConsoleError error])%list, Exited 1).

Definition run (argv : Argv) : list Effect * Ending :=
  if arg_v argv || arg_version argv then
    ([ConsoleLog (version world)], Completed)
  else if arg_h argv || arg_help argv
          || negb (length (positional argv) =? length requiredArgNames)%nat
  then
    let optionals := map (fun name => "[--" ++ name ++ "]") optionalArgNames in
    let requireds := map (underline world) requiredArgNames in
    ([ConsoleLog "";
      ConsoleLog ("usage: 10kticketstat " ++ joinWith " " requireds);
      ConsoleLog ("       " ++ joinWith " " optionals ++ String "010" "")],
     Completed)
  else
    let projectId := default "" (positional argv !! 0%nat) in
    let outputPath := default "" (positional argv !! 1%nat) in
    let apiKey := default "" (positional argv !! 2%nat) in
    match getTimeEntries (dateHost world) projectId apiKey
            (orElse (api_url argv) defaultApiUrl)
            (Some (orElse (start_iso_date argv) (defaultStartIsoDate world)))
            (end_iso_date argv)
            (script world) None [] with
    | (downloads, Pending) => (downloads, Waiting)
    | (downloads, Threw error) => fail downloads error
    | (downloads, Returned timeEntries) =>
        let downloaded :=
          (downloads ++ [ConsoleLog "Download complete."])%list in
        let ticketPattern :=
          orElse (ticket_pattern argv) defaultTicketPatternSource in
        match regExp world ticketPattern with
        | None => fail downloaded (SyntaxError ticketPattern)
        | Some ticketRegExp =>
            let statistics := analyzeWith ticketRegExp timeEntries in
            match resolveOutputPath outputPath with
            | (stats, Returned outputPath) =>
                let before := (downloaded ++ stats)%list in
                match saveStatisticsAsCsv statistics outputPath with
                | (writes, Returned _) =>
                    ((before ++ writes
                      ++ [ConsoleLog
                            ("Done. Analysis saved to: " ++ outputPath)])%list,
                     Completed)
                | (writes, Threw error) => fail (before ++ writes)%list error
                | (writes, Pending) => ((before ++ writes)%list, Waiting)
                end
            | (stats, Threw error) => fail (downloaded ++ stats)%list error
            | (stats, Pending) => ((downloaded ++ stats)%list, Waiting)
            end
        end
    end.

End Run.

(** ** Vocabulary of the statements *)

(** A value of the rate-limit object that is a number. *)
Definition isNumber (v : Js.value) : bool :=
  match v with Js.Num _ => true | _ => false end.

(** Every string kept in a rate-limit object is one that [Number] does
    not read as a number. *)
Definition stringsAreNotNumeric (o : gmap string Js.value) : Prop :=
  forall k s, o !! k = Some (Js.Str s) -> Js.StringToNumber s = Js.NaN.

(** The days of a calendar month, 1 to 12. *)
Definition daysInMonth (year month : Z) : Z :=
  match month with
  | 2 => 28 + Date.leapDays year
  | 4 | 6 | 9 | 11 => 30
  | _ => 31
  end.

(** The time of day of the fields of a string, moved to UTC: the time
    from the start of the written day to the instant. *)
Definition utcTimeOfDay (host : Date.Host) (f : Date.fields) : Z :=
  Date.timeOfDay f - Date.offsetMs host f.

(** The date string of an instant: its year, the index of its month from
    zero and its day of the month, all in UTC. *)
Definition utcDate (t : Z) : string :=
  show (Some (Date.YearFromTime t)) ++ "-" ++ show (Some (Date.MonthFromTime t))
  ++ "-" ++ show (Some (Date.DateFromTime t)).

(** How many times the collector slept at one of the two call sites. *)
Definition isSleepAt (site : Wait) (effect : Effect) : bool :=
  match effect, site with
  | Sleep Advisory _, Advisory | Sleep Reset _, Reset => true
  | _, _ => false
  end.

Definition sleepsAt (site : Wait) (effects : list Effect) : nat :=
  length (filter (fun effect => isSleepAt site effect = true) effects).

(** The effects a download can have: requests, progress lines, sleeps. *)
Definition isDownloadEffect (effect : Effect) : Prop :=
  match effect with
  | Get _ | Sleep _ _ => True
  | ConsoleLog line => exists paging, effect = chunkLog paging
  | _ => False
  end.

(** A header name without a capital letter, and a set of headers whose
    names are such: Node's HTTP parser hands the names of the headers of
    a response over in lower case. *)
Fixpoint isLowerCase (name : string) : bool :=
  match name with
  | EmptyString => true
  | String c name' =>
      negb ((65 <=? nat_of_ascii c) && (nat_of_ascii c <=? 90))%nat
      && isLowerCase name'
  end.

Definition lowerCaseNames (responseHeaders : gmap string string) : Prop :=
  forall name, is_Some (responseHeaders !! name) -> isLowerCase name = true.

(** A request rejected with status 429. *)
Definition throttledTurn (responseHeaders : gmap string string) (now : Z)
  : Turn :=
  {| outcome := Rejected (RequestError
                  (Some {| status := 429; error_headers := responseHeaders |}));
     clock := now |}.

(** The command line of a normal invocation: no version or help flag
    and the three positional arguments. *)
Definition downloads (argv : Argv) : Prop :=
  arg_v argv = false /\ arg_version argv = false /\ arg_h argv = false
  /\ arg_help argv = false /\ length (positional argv) = 3%nat.

(** The download that [run] starts for a command line. *)
Definition download (world : World) (argv : Argv) (script : list Turn)
  : list Effect * Completion (list TimeEntry) :=
  getTimeEntries (dateHost world) (default "" (positional argv !! 0%nat))
    (default "" (positional argv !! 2%nat))
    (orElse (api_url argv) defaultApiUrl)
    (Some (orElse (start_iso_date argv) (defaultStartIsoDate world)))
    (end_iso_date argv) script None [].

(** Every match of the expression in the notes of the entries, entry
    after entry and left to right within an entry. *)
Definition matchesIn (ticketRegExp : string -> list string)
    (timeEntries : list TimeEntry) : list string :=
  flat_map (fun timeEntry => ticketRegExp (notesOrEmpty timeEntry)) timeEntries.

(** How many of the matches are the given ticket. *)
Definition occurrencesIn (ticket : string) (matches : list string) : nat :=
  length (filter (fun t => t = ticket) matches).

(** The hours that go to the row of a ticket: the hours of an entry once
    for each occurrence of the ticket among the matches in its notes,
    entry after entry. *)
Definition additions (ticketRegExp : string -> list string)
    (ticket : string) (timeEntries : list TimeEntry) : list Js.number :=
  flat_map
    (fun timeEntry =>
       replicate (occurrencesIn ticket (ticketRegExp (notesOrEmpty timeEntry)))
         (hours timeEntry))
    timeEntries.

(** The terms added up from left to right in double arithmetic: the
    first term, to which the second is added, then the third, and so
    on.  Without a term there is no sum. *)
Definition addUp (terms : list Js.number) : option Js.number :=
  match terms with
  | [] => None
  | first :: more => Some (foldl Js.add first more)
  end.

(** One more term added to a running sum that may not have started. *)
Definition addTerm (sum : option Js.number) (term : Js.number)
  : option Js.number :=
  Some match sum with
       | Some s => Js.add s term
       | None => term
       end.

(** The hours of the first row of a ticket, when it has a row. *)
Definition hoursOf (ticket' : string) (rows : list TicketStat)
  : option Js.number :=
  match list_find (fun row => ticket row = ticket') rows with
  | Some (_, row) => Some (stat_hours row)
  | None => None
  end.

(** The tickets seen so far after going through more matches: a ticket
    not seen before goes to the end. *)
Fixpoint firstSeen (seen matches : list string) : list string :=
  match matches with
  | [] => seen
  | t :: matches' =>
      firstSeen (if decide (t ∈ seen) then seen else seen ++ [t])%list matches'
  end.

(** A turn after which the collector calls itself again: a fulfilled
    page with a next link and the rate-limit header, or a rejection with
    status 429. *)
Definition continues (turn : Turn) : bool :=
  match outcome turn with
  | Fulfilled response =>
      truthy (next (paging response))
      && bool_decide (is_Some (headers response !! "x-ratelimit-data"))
  | Rejected error => negb (rethrown error)
  end.

Definition isFulfilled (turn : Turn) : bool :=
  match outcome turn with Fulfilled _ => true | Rejected _ => false end.

(** The entries a turn delivers: those of a fulfilled page. *)
Definition entriesOf (turn : Turn) : list TimeEntry :=
  match outcome turn with
  | Fulfilled response => data response
  | Rejected _ => []
  end.

Definition isGet (effect : Effect) : bool :=
  match effect with Get _ => true | _ => false end.

(** How many requests were sent. *)
Definition requestsIn (effects : list Effect) : nat :=
  length (filter (fun effect => isGet effect = true) effects).

(** How many turns of a script satisfy a test. *)
Definition countTurns (test : Turn -> bool) (turns : list Turn) : nat :=
  length (filter (fun turn => test turn = true) turns).

(** An entry with a match in its notes. *)
Definition hasTicket (ticketRegExp : string -> list string)
    (timeEntry : TimeEntry) : Prop :=
  ticketRegExp (notesOrEmpty timeEntry) <> [].

Definition isConsoleLog (effect : Effect) : bool :=
  match effect with ConsoleLog _ => true | _ => false end.

(** What the parser may store under a key: [undefined], a string that
    [Number] does not read as a number, or a number other than [NaN]. *)
Definition storable (v : Js.value) : Prop :=
  match v with
  | Js.Undefined => True
  | Js.Str s => Js.StringToNumber s = Js.NaN
  | Js.Num n => n <> Js.NaN
  end.

(** A string without the character [c]. *)
Fixpoint lacks (c : ascii) (s : string) : bool :=
  match s with
  | EmptyString => true
  | String c' s' => negb (Ascii.eqb c' c) && lacks c s'
  end.

(** A decimal digit, and a string of decimal digits. *)
Definition isDigit (c : ascii) : bool :=
  match Js.digitValue 10 c with Some _ => true | None => false end.

Fixpoint allDigits (s : string) : bool :=
  match s with
  | EmptyString => true
  | String c s' => isDigit c && allDigits s'
  end.

(** ** Sample data *)

Module Sample.

Definition entry1 : TimeEntry :=
  {| hours := Js.ofZ 2; notes := Some "fix ABC-1" |}.
Definition entry2 : TimeEntry :=
  {| hours := Js.ofZ 3; notes := Some "ABC-1 and ABC-2" |}.
Definition entry3 : TimeEntry := {| hours := Js.ofZ 1; notes := None |}.

Definition rateLimit : gmap string string :=
  {[ "x-ratelimit-data" := "{period=>60, limit=>100}" ]}.

Definition link (n : string) : string :=
  "https://api.10000ft.com/api/v1/projects/7/time_entries?page=" ++ n
  ++ "&per_page=100".

Definition page1 : Response :=
  {| headers := rateLimit;
     paging := {| page := 1; next := Some (link "2") |};
     data := [entry1] |}.
Definition page2 : Response :=
  {| headers := rateLimit;
     paging := {| page := 2; next := Some (link "3") |};
     data := [entry2] |}.
(** A first page whose rate-limit header has no recognisable form. *)
Definition unadvised : Response :=
  {| headers := {[ "x-ratelimit-data" := "garbage" ]};
     paging := {| page := 1; next := Some (link "2") |};
     data := [entry1] |}.
Definition page3 : Response :=
  {| headers := rateLimit;
     paging := {| page := 3; next := None |};
     data := [entry3] |}.

Definition fulfilled (response : Response) : Turn :=
  {| outcome := Fulfilled response; clock := 1600000000000 |}.

Definition notFound : Turn :=
  {| outcome := Rejected (RequestError
                  (Some {| status := 404; error_headers := ∅ |}));
     clock := 1600000000000 |}.

(** An engine that knows the default pattern and no other. *)
Definition engine (source : string) : option (string -> list string) :=
  if String.eqb source defaultTicketPatternSource
  then Some (RegExp.matchAll defaultTicketPattern)
  else None.

(** A time zone one hour ahead of UTC all year, and an engine that
    reads no date outside the format. *)
Definition host : Date.Host :=
  {| Date.localTZA := fun _ => 3600000; Date.fallback := fun _ => None |}.

Definition collect :=
  getTimeEntries host "7" "secret" defaultApiUrl None None.
Definition request := requestFor host "7" "secret" defaultApiUrl None None.

(** The effects of downloading [page1], up to the next request. *)
Definition firstPage : list Effect :=
  [Get (request "1"); chunkLog (paging page1); Sleep Advisory (Js.ofZ 600)].

(** The headers of a 429 response, named as Node delivers them. *)
Definition resetAt : gmap string string :=
  {[ "x-ratelimit-reset" := "1600000000500" ]}.

(** The request that [run] sends for the sample command line. *)
Definition dated :=
  requestFor host "7" "secret" defaultApiUrl
    (Some "2019-09-13T12:26:40.000Z") None.

Definition world (script : list Turn) : World :=
  {| script := script;
     dateHost := host;
     regExp := engine;
     stat := fun path => if String.eqb path "out" then Stats true
                         else StatFails;
     join := fun a b => a ++ "/" ++ b;
     writeFails := fun _ => None;
     underline := fun name => name;
     version := "1.0.0";
     defaultStartIsoDate := "2019-09-13T12:26:40.000Z" |}.

Definition argv : Argv :=
  {| arg_v := false; arg_version := false; arg_h := false; arg_help := false;
     positional := ["7"; "out"; "secret"];
     api_url := None; start_iso_date := None; end_iso_date := None;
     ticket_pattern := None |}.

(** A page with a next link and no rate-limit header. *)
Definition unheaded : Response :=
  {| headers := ∅;
     paging := {| page := 1; next := Some (link "2") |};
     data := [entry1] |}.

(** A page whose next link names no page. *)
Definition unnumbered : Response :=
  {| headers := rateLimit;
     paging := {| page := 1;
                  next := Some "https://api.10000ft.com/api/v1/projects/7/time_entries?per_page=100" |};
     data := [entry1] |}.

(** Two pages with a rejection with status 429 between them. *)
Definition throttledScript : list Turn :=
  [fulfilled page1; throttledTurn resetAt 1600000000000; fulfilled page2].

(** The command line without arguments. *)
Definition bare : Argv :=
  {| arg_v := false; arg_version := false; arg_h := false; arg_help := false;
     positional := [];
     api_url := None; start_iso_date := None; end_iso_date := None;
     ticket_pattern := None |}.

(** The command line with a ticket pattern that is no regular
    expression. *)
Definition unbalanced : Argv :=
  {| arg_v := false; arg_version := false; arg_h := false; arg_help := false;
     positional := ["7"; "out"; "secret"];
     api_url := None; start_iso_date := None; end_iso_date := None;
     ticket_pattern := Some "(" |}.

(** Three pages, and the second request answered with status 404. *)
Definition threePages : World :=
  world [fulfilled page1; fulfilled page2; fulfilled page3].
Definition broken : World :=
  world [fulfilled page1; notFound; fulfilled page3].

End Sample.

(** ** Numbers *)

Section Numbers.

Lemma Qred_inject_Z (z : Z) : Qred (inject_Z z) = inject_Z z.
Proof. apply Qred_identity. simpl. apply Z.gcd_1_r. Qed.

Lemma Prim2SF_NaN : FloatOps.Prim2SF Js.NaN = SpecFloat.S754_nan.
Proof. reflexivity. Qed.

Lemma SFeqb_refl (x : SpecFloat.spec_float) :
  SpecFloat.SFeqb x x = false -> x = SpecFloat.S754_nan.
Proof.
  unfold SpecFloat.SFeqb, SpecFloat.SFcompare.
  destruct x as [s|s| |s m e]; try destruct s; try discriminate;
    try reflexivity.
  all: rewrite Z.compare_refl.
  all: change (PosDef.Pos.compare_cont Eq m m) with (Pos.compare m m).
  all: by rewrite Pos.compare_refl.
Qed.

(** [Number.isNaN] holds of the one value [NaN]. *)
Lemma isNaN_true (n : Js.number) : Js.isNaN n = true -> n = Js.NaN.
Proof.
  unfold Js.isNaN, PrimFloat.is_nan. rewrite FloatAxioms.eqb_spec.
  intros H. apply FloatAxioms.Prim2SF_inj. rewrite Prim2SF_NaN.
  apply SFeqb_refl. by destruct (SpecFloat.SFeqb _ _).
Qed.

Lemma isNaN_false (n : Js.number) : Js.isNaN n = false -> n <> Js.NaN.
Proof. by intros H ->. Qed.

Lemma mul_NaN_l (a : Js.number) : Js.mul Js.NaN a = Js.NaN.
Proof.
  apply FloatAxioms.Prim2SF_inj. unfold Js.mul.
  by rewrite FloatAxioms.mul_spec, Prim2SF_NaN.
Qed.

Lemma div_NaN_l (a : Js.number) : Js.div Js.NaN a = Js.NaN.
Proof.
  apply FloatAxioms.Prim2SF_inj. unfold Js.div.
  by rewrite FloatAxioms.div_spec, Prim2SF_NaN.
Qed.

Lemma div_NaN_r (a : Js.number) : Js.div a Js.NaN = Js.NaN.
Proof.
  apply FloatAxioms.Prim2SF_inj. unfold Js.div.
  rewrite FloatAxioms.div_spec, Prim2SF_NaN.
  by destruct (FloatOps.Prim2SF a).
Qed.

Lemma sub_NaN_l (a : Js.number) : Js.sub Js.NaN a = Js.NaN.
Proof.
  apply FloatAxioms.Prim2SF_inj. unfold Js.sub.
  by rewrite FloatAxioms.sub_spec, Prim2SF_NaN.
Qed.

(** A conversion to a double never gives [NaN]: rounding keeps the sign
    of a mantissa. *)
Section Rounding.

Import SpecFloat.

Lemma shr_1_nonneg (mrs : shr_record) :
  0 <= shr_m mrs -> 0 <= shr_m (shr_1 mrs).
Proof. destruct mrs as [m r s]. destruct m as [|[p|p|]|p]; cbn; lia. Qed.

Lemma iter_shr_1_nonneg (p : positive) :
  forall mrs, 0 <= shr_m mrs -> 0 <= shr_m (iter_pos shr_1 p mrs).
Proof.
  induction p as [p IH|p IH|]; intros mrs H; cbn.
  - apply IH, IH, shr_1_nonneg, H.
  - apply IH, IH, H.
  - apply shr_1_nonneg, H.
Qed.

Lemma shr_fexp_nonneg (prec emax m e : Z) (l : location) :
  0 <= m -> 0 <= shr_m (fst (shr_fexp prec emax m e l)).
Proof.
  intros H. unfold shr_fexp, shr.
  assert (H0 : 0 <= shr_m (shr_record_of_loc m l))
    by (destruct l as [|[]]; exact H).
  destruct (fexp prec emax (Zdigits2 m + e) - e); cbn [fst]; try exact H0.
  apply iter_shr_1_nonneg, H0.
Qed.

Lemma round_nearest_even_nonneg (m : Z) (l : location) :
  0 <= m -> 0 <= round_nearest_even m l.
Proof.
  intros H. destruct l as [|[]]; cbn; try lia. destruct (IntDef.Z.even m); lia.
Qed.

Lemma binary_round_aux_not_nan (prec emax : Z) (sx : bool) (mx ex : Z)
    (lx : location) :
  0 <= mx -> binary_round_aux prec emax sx mx ex lx <> S754_nan.
Proof.
  intros H. unfold binary_round_aux.
  pose proof (shr_fexp_nonneg prec emax mx ex lx H) as H1.
  destruct (shr_fexp prec emax mx ex lx) as [mrs' e']. cbn [fst] in H1.
  pose proof (shr_fexp_nonneg prec emax _ e' loc_Exact
                (round_nearest_even_nonneg _ (loc_of_shr_record mrs') H1))
    as H2.
  destruct (shr_fexp prec emax _ e' loc_Exact) as [mrs'' e'']. cbn [fst] in H2.
  destruct (shr_m mrs''); [discriminate| |lia].
  destruct (_ <=? _); discriminate.
Qed.

Lemma binary_round_not_nan (prec emax : Z) (sx : bool) (mx : positive) (ex : Z) :
  binary_round prec emax sx mx ex <> S754_nan.
Proof.
  unfold binary_round. destruct (shl_align _ _ _) as [mz ez].
  apply binary_round_aux_not_nan. lia.
Qed.

Lemma SFdiv_integers_not_nan (n : Z) (d : positive) :
  SFdiv FloatOps.prec FloatOps.emax (Js.integer n) (Js.integer (Zpos d)) <> S754_nan.
Proof.
  destruct n as [|p|p]; cbn [Js.integer SFdiv]; try discriminate.
  all: unfold SFdiv_core_binary; cbv zeta.
  all: match goal with
       | |- context [IntDef.Z.div_eucl ?a ?b] =>
           pose proof (Z.div_pos a b) as Hq; unfold Z.div in Hq;
           change (IntDef.Z.div_eucl a b) with (Z.div_eucl a b);
           assert (Ha : 0 <= a);
           [|destruct (Z.div_eucl a b) as [q r];
             apply binary_round_aux_not_nan; apply Hq; [exact Ha|lia]]
       end.
  all: match goal with |- 0 <= match ?s with _ => _ end =>
         destruct s eqn:Hs; try lia;
         change (IntDef.Z.shiftl ?a ?b) with (Z.shiftl a b);
         apply Z.shiftl_nonneg; lia end.
Qed.

Lemma SFldexp_not_nan (x : spec_float) (e : Z) :
  x <> S754_nan -> SFldexp FloatOps.prec FloatOps.emax x e <> S754_nan.
Proof.
  destruct x as [| | |s m e']; cbn [SFldexp]; try done.
  intros _. apply binary_round_not_nan.
Qed.

Lemma binary_normalize_not_nan (m e : Z) (szero : bool) :
  binary_normalize FloatOps.prec FloatOps.emax m e szero <> S754_nan.
Proof.
  destruct m; cbn [binary_normalize]; [done|..]; apply binary_round_not_nan.
Qed.

Lemma SF2Prim_not_nan (x : spec_float) :
  x <> S754_nan -> FloatOps.SF2Prim x <> PrimFloat.nan.
Proof.
  intros Hx Hnan. apply (f_equal FloatOps.Prim2SF) in Hnan.
  change (FloatOps.Prim2SF PrimFloat.nan) with S754_nan in Hnan.
  destruct x as [[]|[]| |s m e]; try discriminate Hnan; [done|].
  cbn [FloatOps.SF2Prim] in Hnan. cbv zeta in Hnan.
  assert (Hf : FloatOps.Prim2SF
                 (FloatOps.Z.ldexp
                    (PrimFloat.of_uint63 (Uint63Axioms.of_Z (Z.pos m))) e)
               <> S754_nan).
  { rewrite FloatLemmas.Z_ldexp_spec, FloatAxioms.of_uint63_spec.
    apply SFldexp_not_nan, binary_normalize_not_nan. }
  destruct s; [|done].
  rewrite FloatAxioms.opp_spec in Hnan.
  by destruct (FloatOps.Prim2SF _).
Qed.

Lemma ofQ_not_NaN (q : Q) : Js.ofQ q <> Js.NaN.
Proof. apply SF2Prim_not_nan, SFdiv_integers_not_nan. Qed.

End Rounding.

Lemma ofZ_not_NaN (z : Z) : Js.ofZ z <> Js.NaN.
Proof. apply ofQ_not_NaN. Qed.

End Numbers.

(** ** The rate-limit header *)

Section Header.

Lemma set_keeps (o : gmap string Js.value) (k : string) (v : Js.value) :
  stringsAreNotNumeric o ->
  (forall s, v = Js.Str s -> Js.StringToNumber s = Js.NaN) ->
  stringsAreNotNumeric (Js.set o k v).
Proof.
  intros Ho Hv k' s. unfold Js.set. case_decide; [apply Ho|].
  rewrite lookup_insert. case_decide; [|apply Ho].
  intros [= ->]. by apply Hv.
Qed.

Lemma headerReducer_keeps (o : gmap string Js.value) (keyValue : list string) :
  stringsAreNotNumeric o -> stringsAreNotNumeric (headerReducer o keyValue).
Proof.
  intros Ho. unfold headerReducer. apply set_keeps; [done|].
  intros s. destruct (keyValue !! 1%nat) as [v|]; cbn [Js.Number].
  - destruct (Js.isNaN (Js.StringToNumber v)) eqn:E; simpl; [|done].
    intros [= <-]. by apply isNaN_true.
  - by change (Js.isNaN Js.NaN) with true.
Qed.

Lemma parse10KResponseHeader_strings (header : string) :
  stringsAreNotNumeric (parse10KResponseHeader header).
Proof.
  unfold parse10KResponseHeader.
  generalize (map (Js.split "=>")
                (Js.split ", " (Js.removeAll isBraceOrColon header))).
  intros l.
  assert (H : stringsAreNotNumeric (∅ : gmap string Js.value))
    by (intros k s; by rewrite lookup_empty).
  revert H. generalize (∅ : gmap string Js.value).
  induction l as [|kv l IH]; intros o Ho; simpl; [done|].
  apply IH. by apply headerReducer_keeps.
Qed.

Lemma ToNumber_not_a_number (o : gmap string Js.value) (k : string) :
  stringsAreNotNumeric o -> isNumber (Js.get o k) = false ->
  Js.ToNumber (Js.get o k) = Js.NaN.
Proof.
  intros Ho. unfold Js.get.
  destruct (o !! k) as [[|s|n]|] eqn:E; simpl; try done.
  intros _. by apply (Ho k).
Qed.

Lemma interval_NaN (header : string) :
  isNumber (Js.get (parse10KResponseHeader header) "period") = false
  \/ isNumber (Js.get (parse10KResponseHeader header) "limit") = false ->
  minimumRequestIntervalMs (parse10KResponseHeader header) = Js.NaN.
Proof.
  intros Hbad. pose proof (parse10KResponseHeader_strings header) as Hs.
  unfold minimumRequestIntervalMs. destruct Hbad as [H|H].
  - rewrite (ToNumber_not_a_number _ _ Hs H). by rewrite mul_NaN_l, div_NaN_l.
  - rewrite (ToNumber_not_a_number _ _ Hs H). by rewrite div_NaN_r.
Qed.

End Header.

(** C4. The header [{period=>60, limit=>100}] parses to the object with
    the two numbers [period = 60] and [limit = 100], and the interval
    computed from it, [(period * 1000) / limit], is 600 milliseconds. *)
Theorem advisory_header_example :
  parse10KResponseHeader "{period=>60, limit=>100}"
  = {[ "period" := Js.Num (Js.ofZ 60); "limit" := Js.Num (Js.ofZ 100) ]}
  /\ minimumRequestIntervalMs (parse10KResponseHeader "{period=>60, limit=>100}")
     = Js.ofZ 600.
Proof. split; vm_compute; reflexivity. Qed.

(** C5, as stated, fails: a header of no recognisable form does not
    parse to the empty object, and the interval computed from it is not
    zero.  The header [garbage] parses to an object with the one key
    [garbage], bound to [undefined]. *)
Lemma unrecognised_header_not_empty :
  parse10KResponseHeader "garbage" = {[ "garbage" := Js.Undefined ]}
  /\ parse10KResponseHeader "garbage" <> ∅
  /\ minimumRequestIntervalMs (parse10KResponseHeader "garbage") <> Js.ofZ 0.
Proof.
  split; [vm_compute; reflexivity|]. split.
  - intros H. apply (f_equal (fun m => m !! "garbage")) in H.
    vm_compute in H. discriminate.
  - vm_compute. discriminate.
Qed.

(** ** The collector *)

Section CollectorFacts.

Variable host : Date.Host.
Variables projectId apiKey apiUrl : string.
Variables startIsoDate endIsoDate : option string.

Let collect := getTimeEntries host projectId apiKey apiUrl startIsoDate endIsoDate.
Let request := requestFor host projectId apiKey apiUrl startIsoDate endIsoDate.

Lemma collect_nil (page : option string) (acc : list TimeEntry) :
  collect [] page acc = ([Get (request (default "1" page))], Pending).
Proof. reflexivity. Qed.

Lemma collect_cons (turn : Turn) (script : list Turn)
    (page : option string) (acc : list TimeEntry) :
  collect (turn :: script) page acc
  = match attempt (default "1" page) acc turn with
    | (effects, Finish completion) =>
        (Get (request (default "1" page)) :: effects, completion)
    | (effects, Recur nextPage accumulatedEntries) =>
        let later := collect script nextPage accumulatedEntries in
        ((Get (request (default "1" page)) :: effects ++ later.1)%list,
         later.2)
    end.
Proof.
  subst collect request. simpl. destruct attempt as [effects [c|np acc']];
    [done|]. by destruct getTimeEntries.
Qed.

(** Only the page after the default has been applied matters. *)
Lemma collect_default (script : list Turn) (page : option string)
    (acc : list TimeEntry) :
  collect script (Some (default "1" page)) acc = collect script page acc.
Proof. by destruct script. Qed.

Lemma attempt_not_pending (page : string) (acc : list TimeEntry)
    (turn : Turn) (effects : list Effect) :
  attempt page acc turn <> (effects, Finish Pending).
Proof.
  unfold attempt, onFulfilled, onError.
  destruct (outcome turn) as [response|error]; simpl.
  - destruct (negb _); [congruence|].
    destruct (_ !! _); [congruence|]. simpl. congruence.
  - destruct (rethrown error); congruence.
Qed.

(** A download that has used up its script awaits the answer to a last
    request; with more script it goes on from there. *)
Lemma collect_pending_app (before : list Turn) :
  forall (page : option string) (acc : list TimeEntry) (effects : list Effect),
    collect before page acc = (effects, Pending) ->
    exists (sent : list Effect) (page' : string) (acc' : list TimeEntry),
      effects = (sent ++ [Get (request page')])%list
      /\ forall after,
          collect (before ++ after) page acc
          = let later := collect after (Some page') acc' in
            ((sent ++ later.1)%list, later.2).
Proof.
  induction before as [|turn before IH]; intros page acc effects.
  - rewrite collect_nil. intros [= <-].
    exists [], (default "1" page), acc. split; [done|].
    intros after. simpl. rewrite collect_default. by destruct collect.
  - rewrite collect_cons.
    destruct (attempt (default "1" page) acc turn) as [eff [c|np acc']] eqn:E.
    + intros [= <- ->]. by apply attempt_not_pending in E.
    + destruct (collect before np acc') as [later c] eqn:El.
      cbn [fst snd]. intros [= <- ->].
      destruct (IH np acc' later El) as (sent & page' & acc'' & -> & Happ).
      exists (Get (request (default "1" page)) :: eff ++ sent)%list, page', acc''.
      split; [simpl; by rewrite app_assoc|].
      intros after.
      change ((turn :: before) ++ after)%list with (turn :: (before ++ after))%list.
      rewrite collect_cons, E, Happ. cbn [fst snd app].
      by rewrite app_assoc.
Qed.

(** Every run starts by sending the request for its page. *)
Lemma collect_starts_with_request (script : list Turn)
    (page : option string) (acc : list TimeEntry) :
  exists tail,
    (collect script page acc).1 = Get (request (default "1" page)) :: tail.
Proof.
  destruct script as [|turn script]; [by exists []|].
  rewrite collect_cons. destruct attempt as [eff [c|np acc']]; simpl; eauto.
Qed.

Lemma attempt_throttled (page : string) (acc : list TimeEntry)
    (responseHeaders : gmap string string) (now : Z) :
  attempt page acc (throttledTurn responseHeaders now)
  = ([Sleep Reset
        (Js.sub (Js.Number (responseHeaders !! "X-RateLimit-Reset"))
                (Js.ofZ now))],
     Recur (Some page) acc).
Proof. reflexivity. Qed.

Lemma attempt_failure (page : string) (acc : list TimeEntry)
    (error : Error) (now : Z) :
  rethrown error = true ->
  attempt page acc {| outcome := Rejected error; clock := now |}
  = ([], Finish (Threw error)).
Proof. intros H. unfold attempt, onError. simpl. by rewrite H. Qed.

Lemma collect_fulfilled_next (response : Response) (now : Z)
    (header : string) (script : list Turn) (page : option string)
    (acc : list TimeEntry) :
  truthy (next (paging response)) = true ->
  headers response !! "x-ratelimit-data" = Some header ->
  collect ({| outcome := Fulfilled response; clock := now |} :: script) page acc
  = let later :=
      collect script (pageOfLink (default "" (next (paging response))))
        (acc ++ data response)%list in
    (Get (request (default "1" page)) :: chunkLog (paging response)
     :: Sleep Advisory (minimumRequestIntervalMs (parse10KResponseHeader header))
     :: later.1, later.2).
Proof.
  intros Hnext Hheader. rewrite collect_cons. unfold attempt, onFulfilled.
  cbn [outcome]. by rewrite Hnext, Hheader.
Qed.

Lemma collect_fulfilled_last (response : Response) (now : Z)
    (script : list Turn) (page : option string) (acc : list TimeEntry) :
  truthy (next (paging response)) = false ->
  collect ({| outcome := Fulfilled response; clock := now |} :: script) page acc
  = ([Get (request (default "1" page)); chunkLog (paging response)],
     Returned (acc ++ data response)%list).
Proof.
  intros Hnext. rewrite collect_cons. unfold attempt, onFulfilled.
  cbn [outcome]. by rewrite Hnext.
Qed.

Lemma attempt_download_effects (page : string) (acc : list TimeEntry)
    (turn : Turn) :
  Forall isDownloadEffect (attempt page acc turn).1.
Proof.
  unfold attempt, onFulfilled, onError.
  destruct (outcome turn) as [response|error]; simpl.
  - destruct (negb _); simpl.
    { repeat constructor. by eexists. }
    destruct (_ !! _); simpl.
    + repeat constructor. by eexists.
    + repeat constructor. by eexists.
  - destruct (rethrown error); simpl; repeat constructor.
Qed.

Lemma collect_download_effects (script : list Turn) :
  forall (page : option string) (acc : list TimeEntry),
    Forall isDownloadEffect (collect script page acc).1.
Proof.
  induction script as [|turn script IH]; intros page acc.
  - rewrite collect_nil. by repeat constructor.
  - rewrite collect_cons.
    pose proof (attempt_download_effects (default "1" page) acc turn) as H.
    destruct attempt as [eff [c|np acc']]; simpl in *.
    + by constructor.
    + constructor; [done|]. apply Forall_app. split; [done|apply IH].
Qed.

End CollectorFacts.

(** C1.  A request rejected with status 429 is followed by one sleep
    and by the same request again, for the same page and with the
    entries accumulated so far unchanged: the run ends as the run without
    the rejection ends, with the same entries returned, and its effects
    are those of that run with the sleep and the repeated request
    inserted after the rejected one. *)
Theorem throttled_page_is_retried
    (host : Date.Host) (projectId apiKey apiUrl : string)
    (startIsoDate endIsoDate : option string)
    (before after : list Turn) (responseHeaders : gmap string string) (now : Z)
    (page : option string) (acc : list TimeEntry) (effects : list Effect) :
  getTimeEntries host projectId apiKey apiUrl startIsoDate endIsoDate
    before page acc = (effects, Pending) ->
  exists (sent : list Effect) (page' : string) (acc' : list TimeEntry)
         (tail : list Effect) (completion : Completion (list TimeEntry)),
    let request :=
      requestFor host projectId apiKey apiUrl startIsoDate endIsoDate page' in
    let wait :=
      Sleep Reset
        (Js.sub (Js.Number (responseHeaders !! "X-RateLimit-Reset"))
                (Js.ofZ now)) in
    effects = (sent ++ [Get request])%list
    /\ attempt page' acc' (throttledTurn responseHeaders now)
       = ([wait], Recur (Some page') acc')
    /\ getTimeEntries host projectId apiKey apiUrl startIsoDate endIsoDate
         (before ++ after) page acc
       = ((sent ++ Get request :: tail)%list, completion)
    /\ getTimeEntries host projectId apiKey apiUrl startIsoDate endIsoDate
         (before ++ throttledTurn responseHeaders now :: after) page acc
       = ((sent ++ Get request :: wait :: Get request :: tail)%list,
          completion).
Proof.
  intros Hpending.
  destruct (collect_pending_app _ _ _ _ _ _ _ _ _ _ Hpending)
    as (sent & page' & acc' & -> & Happ).
  destruct (collect_starts_with_request host projectId apiKey apiUrl startIsoDate
              endIsoDate after (Some page') acc') as [tail Htail].
  simpl in Htail.
  exists sent, page', acc', tail,
    (getTimeEntries host projectId apiKey apiUrl startIsoDate endIsoDate
       after (Some page') acc').2.
  cbv zeta. split; [done|]. split; [apply attempt_throttled|]. split.
  - rewrite Happ. cbn zeta. by rewrite Htail.
  - rewrite Happ. cbn zeta. rewrite collect_cons.
    change (default "1" (Some page')) with page'.
    rewrite attempt_throttled. cbn zeta. cbn [fst snd app]. by rewrite Htail.
Qed.

Lemma throttled_page_is_retried_witness :
  Sample.collect [Sample.fulfilled Sample.page1] None []
  = (Sample.firstPage ++ [Get (Sample.request "2")], Pending)%list
  /\ exists sent page' acc' tail completion,
      (Sample.firstPage ++ [Get (Sample.request "2")])%list
      = (sent ++ [Get (Sample.request page')])%list
      /\ attempt page' acc' (throttledTurn Sample.resetAt 1600000000000)
         = ([Sleep Reset
               (Js.sub (Js.Number (Sample.resetAt !! "X-RateLimit-Reset"))
                       (Js.ofZ 1600000000000))],
            Recur (Some page') acc')
      /\ Sample.collect
           ([Sample.fulfilled Sample.page1] ++ [Sample.fulfilled Sample.page3])%list
           None []
         = ((sent ++ Get (Sample.request page') :: tail)%list, completion)
      /\ Sample.collect
           ([Sample.fulfilled Sample.page1]
            ++ throttledTurn Sample.resetAt 1600000000000
               :: [Sample.fulfilled Sample.page3])%list
           None []
         = ((sent ++ Get (Sample.request page')
               :: Sleep Reset
                    (Js.sub (Js.Number (Sample.resetAt !! "X-RateLimit-Reset"))
                            (Js.ofZ 1600000000000))
               :: Get (Sample.request page') :: tail)%list,
            completion).
Proof.
  assert (H : Sample.collect [Sample.fulfilled Sample.page1] None []
              = (Sample.firstPage ++ [Get (Sample.request "2")], Pending)%list)
    by (vm_compute; reflexivity).
  split; [exact H|].
  exact (throttled_page_is_retried Sample.host "7" "secret" defaultApiUrl None None
           [Sample.fulfilled Sample.page1] [Sample.fulfilled Sample.page3]
           Sample.resetAt 1600000000000 None [] _ H).
Defined.

(** C2.  Three pages that are fulfilled one after the other, the first
    two with a link to pages 2 and 3 and with the rate-limit header, the
    third without a next link: the collector returns the entries of the
    three pages in page order, sleeps twice at the advisory call site,
    after pages 1 and 2 and not after page 3, and never sleeps at the
    throttling call site. *)
Theorem three_pages_are_concatenated
    (host : Date.Host) (projectId apiKey apiUrl : string)
    (startIsoDate endIsoDate : option string)
    (r1 r2 r3 : Response) (now1 now2 now3 : Z) (link1 link2 header1 header2 : string) :
  next (paging r1) = Some link1 -> truthy (Some link1) = true ->
  pageOfLink link1 = Some "2" ->
  headers r1 !! "x-ratelimit-data" = Some header1 ->
  next (paging r2) = Some link2 -> truthy (Some link2) = true ->
  pageOfLink link2 = Some "3" ->
  headers r2 !! "x-ratelimit-data" = Some header2 ->
  truthy (next (paging r3)) = false ->
  let request := requestFor host projectId apiKey apiUrl startIsoDate endIsoDate in
  let run :=
    getTimeEntries host projectId apiKey apiUrl startIsoDate endIsoDate
      [ {| outcome := Fulfilled r1; clock := now1 |};
        {| outcome := Fulfilled r2; clock := now2 |};
        {| outcome := Fulfilled r3; clock := now3 |} ] None [] in
  run = ([ Get (request "1"); chunkLog (paging r1);
           Sleep Advisory
             (minimumRequestIntervalMs (parse10KResponseHeader header1));
           Get (request "2"); chunkLog (paging r2);
           Sleep Advisory
             (minimumRequestIntervalMs (parse10KResponseHeader header2));
           Get (request "3"); chunkLog (paging r3) ],
         Returned (data r1 ++ data r2 ++ data r3)%list)
  /\ sleepsAt Advisory run.1 = 2%nat
  /\ sleepsAt Reset run.1 = 0%nat.
Proof.
  intros Hn1 Ht1 Hp1 Hh1 Hn2 Ht2 Hp2 Hh2 Ht3 request run.
  assert (Hrun : run
    = ([ Get (request "1"); chunkLog (paging r1);
         Sleep Advisory
           (minimumRequestIntervalMs (parse10KResponseHeader header1));
         Get (request "2"); chunkLog (paging r2);
         Sleep Advisory
           (minimumRequestIntervalMs (parse10KResponseHeader header2));
         Get (request "3"); chunkLog (paging r3) ],
       Returned (data r1 ++ data r2 ++ data r3)%list)).
  { subst run request.
    rewrite (collect_fulfilled_next _ _ _ _ _ _ _ _ header1)
      by (by rewrite ?Hn1).
    rewrite Hn1. cbn [from_option id]. rewrite Hp1.
    rewrite (collect_fulfilled_next _ _ _ _ _ _ _ _ header2)
      by (by rewrite ?Hn2).
    rewrite Hn2. cbn [from_option id]. rewrite Hp2.
    rewrite collect_fulfilled_last by done.
    cbn [fst snd app]. by rewrite app_assoc. }
  split; [exact Hrun|]. rewrite Hrun. split; reflexivity.
Qed.

Lemma three_pages_are_concatenated_witness :
  Sample.collect
    [Sample.fulfilled Sample.page1; Sample.fulfilled Sample.page2;
     Sample.fulfilled Sample.page3] None []
  = ([ Get (Sample.request "1"); chunkLog (paging Sample.page1);
       Sleep Advisory (Js.ofZ 600);
       Get (Sample.request "2"); chunkLog (paging Sample.page2);
       Sleep Advisory (Js.ofZ 600);
       Get (Sample.request "3"); chunkLog (paging Sample.page3) ],
     Returned [Sample.entry1; Sample.entry2; Sample.entry3]).
Proof.
  exact (proj1
    (three_pages_are_concatenated Sample.host "7" "secret" defaultApiUrl None None
       Sample.page1 Sample.page2 Sample.page3
       1600000000000 1600000000000 1600000000000
       (Sample.link "2") (Sample.link "3")
       "{period=>60, limit=>100}" "{period=>60, limit=>100}"
       eq_refl eq_refl eq_refl eq_refl eq_refl eq_refl eq_refl eq_refl eq_refl)).
Defined.

(** C6.  The wait before the retry is not [max(0, reset - now)].  The
    header names of a response reach the script in lower case, which is
    how the collector itself reads [x-ratelimit-data]; the [catch] block
    looks the reset instant up under the mixed-case name
    [X-RateLimit-Reset].  For every 429 response with lower-case header
    names the lookup finds nothing, whatever the response carries under
    [x-ratelimit-reset]: [Number(undefined)] is [NaN], and the duration
    passed to [sleep] is [NaN] at every clock reading.  The same page is
    then requested again with the same entries. *)
Theorem reset_header_is_never_found
    (host : Date.Host) (projectId apiKey apiUrl : string)
    (startIsoDate endIsoDate : option string)
    (responseHeaders : gmap string string) (now : Z)
    (later : list Turn) (page : option string) (acc : list TimeEntry) :
  lowerCaseNames responseHeaders ->
  getTimeEntries host projectId apiKey apiUrl startIsoDate endIsoDate
    (throttledTurn responseHeaders now :: later) page acc
  = (let retry :=
       getTimeEntries host projectId apiKey apiUrl startIsoDate endIsoDate
         later (Some (default "1" page)) acc in
     (Get (requestFor host projectId apiKey apiUrl startIsoDate endIsoDate
             (default "1" page))
      :: Sleep Reset Js.NaN :: retry.1, retry.2)).
Proof.
  intros Hlower.
  assert (Hnone : responseHeaders !! "X-RateLimit-Reset" = None).
  { destruct (responseHeaders !! "X-RateLimit-Reset") as [v|] eqn:E; [|done].
    by specialize (Hlower "X-RateLimit-Reset" (ex_intro _ v E)). }
  rewrite collect_cons, attempt_throttled, Hnone.
  cbn [Js.Number]. by rewrite sub_NaN_l.
Qed.

(** The response announces a reset 500 milliseconds after the clock
    reading; the collector sleeps for [NaN], not for 500. *)
Lemma reset_header_is_never_found_witness :
  lowerCaseNames Sample.resetAt
  /\ Js.Number (Sample.resetAt !! "x-ratelimit-reset") = Js.ofZ 1600000000500
  /\ (Sample.collect
        [throttledTurn Sample.resetAt 1600000000000;
         Sample.fulfilled Sample.page3] None []).1 !! 1%nat
     = Some (Sleep Reset Js.NaN)
  /\ Js.NaN <> Js.ofZ (Z.max 0 (1600000000500 - 1600000000000)).
Proof.
  assert (Hlower : lowerCaseNames Sample.resetAt).
  { intros name [v Hv]. unfold Sample.resetAt in Hv.
    apply lookup_singleton_Some in Hv as [<- _]. reflexivity. }
  split; [exact Hlower|]. split; [vm_compute; reflexivity|].
  split; [|vm_compute; discriminate].
  unfold Sample.collect.
  rewrite (reset_header_is_never_found Sample.host "7" "secret"
             defaultApiUrl None None Sample.resetAt 1600000000000
             [Sample.fulfilled Sample.page3] None [] Hlower).
  reflexivity.
Defined.

(** C5, amended.  The parser is a total function of the header string.
    Whenever the object it returns has no number under [period] or no
    number under [limit], the interval computed by the collector is
    [NaN]; the collector passes it to [sleep] and goes on to the next
    page with the entries of this page appended: it does not fail. *)
Theorem unrecognised_header_delay
    (host : Date.Host) (projectId apiKey apiUrl : string)
    (startIsoDate endIsoDate : option string)
    (header : string) (response : Response) (now : Z) (later : list Turn)
    (page : option string) (entryAccumulator : list TimeEntry) :
  isNumber (Js.get (parse10KResponseHeader header) "period") = false
  \/ isNumber (Js.get (parse10KResponseHeader header) "limit") = false ->
  headers response !! "x-ratelimit-data" = Some header ->
  truthy (next (paging response)) = true ->
  minimumRequestIntervalMs (parse10KResponseHeader header) = Js.NaN
  /\ getTimeEntries host projectId apiKey apiUrl startIsoDate endIsoDate
       ({| outcome := Fulfilled response; clock := now |} :: later)
       page entryAccumulator
     = let rest :=
         getTimeEntries host projectId apiKey apiUrl startIsoDate endIsoDate
           later (pageOfLink (default "" (next (paging response))))
           (entryAccumulator ++ data response)%list in
       (Get (requestFor host projectId apiKey apiUrl startIsoDate endIsoDate
               (default "1" page))
        :: chunkLog (paging response) :: Sleep Advisory Js.NaN :: rest.1,
        rest.2).
Proof.
  intros Hbad Hheader Hnext.
  pose proof (interval_NaN header Hbad) as Hnan.
  split; [done|].
  by rewrite (collect_fulfilled_next _ _ _ _ _ _ _ _ header), Hnan.
Qed.

Lemma unrecognised_header_delay_witness :
  minimumRequestIntervalMs (parse10KResponseHeader "garbage") = Js.NaN
  /\ Sample.collect
       [Sample.fulfilled Sample.unadvised; Sample.fulfilled Sample.page3]
       None []
     = ([ Get (Sample.request "1"); chunkLog (paging Sample.unadvised);
          Sleep Advisory Js.NaN;
          Get (Sample.request "2"); chunkLog (paging Sample.page3) ],
        Returned [Sample.entry1; Sample.entry3]).
Proof.
  destruct (unrecognised_header_delay Sample.host "7" "secret" defaultApiUrl None None
              "garbage" Sample.unadvised 1600000000000
              [Sample.fulfilled Sample.page3] None []
              (or_introl eq_refl) eq_refl eq_refl) as [Hnan Hrun].
  split; [exact Hnan|].
  etransitivity; [exact Hrun|reflexivity].
Defined.

(** ** The whole run *)

Section RunFacts.

Lemma download_effect_is_no_output (effect : Effect) :
  isDownloadEffect effect ->
  (forall path records, effect <> WriteRecords path records)
  /\ effect <> ConsoleLog "Download complete.".
Proof.
  destruct effect as [| line | | | |]; simpl; try done.
  intros [paging [= ->]]. split; [done|].
  unfold chunkLog. intros [=].
Qed.

Lemma run_download_throws (world : World) (argv : Argv)
    (effects : list Effect) (error : Error) :
  downloads argv ->
  download world argv (script world) = (effects, Threw error) ->
  run world argv = ((effects ++ [ConsoleError error])%list, Exited 1).
Proof.
  intros (Hv & Hversion & Hh & Hhelp & Hlen) Hdownload.
  unfold run. rewrite Hv, Hversion, Hh, Hhelp, Hlen. cbn [orb negb].
  change (3 =? length requiredArgNames)%nat with true. cbn [negb].
  unfold download in Hdownload. by rewrite Hdownload.
Qed.

End RunFacts.

(** C3.  When a request of the download is rejected with a transport
    error or with a status other than 429, the collector throws that
    error at once: it has no effect after the failed request and returns
    no entries.  The run then reports the error and exits with status 1,
    without having logged the end of the download and without having
    written any records. *)
Theorem failed_request_aborts
    (world : World) (argv : Argv) (before after : list Turn)
    (response : option ErrorResponse) (now : Z) (effects : list Effect) :
  downloads argv ->
  rethrown (RequestError response) = true ->
  script world
  = (before ++ {| outcome := Rejected (RequestError response); clock := now |}
       :: after)%list ->
  download world argv before = (effects, Pending) ->
  download world argv (script world)
  = (effects, Threw (RequestError response))
  /\ run world argv
     = ((effects ++ [ConsoleError (RequestError response)])%list, Exited 1)
  /\ (forall path records, WriteRecords path records ∉ (run world argv).1)
  /\ ConsoleLog "Download complete." ∉ (run world argv).1.
Proof.
  intros Hargv Hrethrown Hscript Hpending.
  assert (Hthrows : download world argv (script world)
                    = (effects, Threw (RequestError response))).
  { unfold download in *. rewrite Hscript.
    destruct (collect_pending_app _ _ _ _ _ _ _ _ _ _ Hpending)
      as (sent & page' & acc' & -> & Happ).
    rewrite Happ, collect_cons, attempt_failure by done. reflexivity. }
  split; [done|].
  rewrite (run_download_throws _ _ _ _ Hargv Hthrows). split; [done|].
  assert (Hall : Forall isDownloadEffect effects).
  { pose proof (collect_download_effects (dateHost world)
                  (default "" (positional argv !! 0%nat))
                  (default "" (positional argv !! 2%nat))
                  (orElse (api_url argv) defaultApiUrl)
                  (Some (orElse (start_iso_date argv) (defaultStartIsoDate world)))
                  (end_iso_date argv) before None []) as H.
    unfold download in Hpending. by rewrite Hpending in H. }
  cbn [fst]. split.
  - intros path records [Hin|Hin]%elem_of_app.
    + rewrite Forall_forall in Hall.
      by destruct (download_effect_is_no_output _ (Hall _ Hin)) as [H _];
        apply (H path records).
    + by apply list_elem_of_singleton in Hin.
  - intros [Hin|Hin]%elem_of_app.
    + rewrite Forall_forall in Hall.
      by destruct (download_effect_is_no_output _ (Hall _ Hin)) as [_ H].
    + by apply list_elem_of_singleton in Hin.
Qed.

Lemma failed_request_aborts_witness :
  let world :=
    Sample.world [Sample.fulfilled Sample.page1; Sample.notFound;
                  Sample.fulfilled Sample.page3] in
  run world Sample.argv
  = ([ Get (Sample.dated "1"); chunkLog (paging Sample.page1);
       Sleep Advisory (Js.ofZ 600); Get (Sample.dated "2");
       ConsoleError (RequestError
                       (Some {| status := 404; error_headers := ∅ |})) ],
     Exited 1).
Proof.
  exact (proj1 (proj2
    (failed_request_aborts
       (Sample.world [Sample.fulfilled Sample.page1; Sample.notFound;
                      Sample.fulfilled Sample.page3])
       Sample.argv [Sample.fulfilled Sample.page1]
       [Sample.fulfilled Sample.page3]
       (Some {| status := 404; error_headers := ∅ |}) 1600000000000
       [ Get (Sample.dated "1"); chunkLog (paging Sample.page1);
         Sleep Advisory (Js.ofZ 600); Get (Sample.dated "2") ]
       (conj eq_refl (conj eq_refl (conj eq_refl (conj eq_refl eq_refl))))
       eq_refl eq_refl eq_refl))).
Defined.

(** C10.  Resolving the output path never throws.  For a path that
    exists and is a directory the result is [path.join] of that path and
    the default file name [10kticketstat.csv]; for any other path, one
    that exists and is not a directory or one for which [fs.stat] fails,
    the result is the path as given. *)
Theorem resolveOutputPath_never_throws (world : World) (userOutputPath : string) :
  (resolveOutputPath world userOutputPath).2
  = Returned
      match stat world userOutputPath with
      | Stats true => join world userOutputPath "10kticketstat.csv"
      | Stats false | StatFails => userOutputPath
      end.
Proof.
  unfold resolveOutputPath. cbn [snd].
  by destruct (stat world userOutputPath) as [[]|].
Qed.

(** ** Aggregation *)

Section AnalyzeFacts.

Variable ticketRegExp : string -> list string.

Lemma countTicket_nil (h : Js.number) (t : string) :
  countTicket h [] t = [{| ticket := t; stat_hours := h |}].
Proof. reflexivity. Qed.

Lemma countTicket_cons (h : Js.number) (row : TicketStat)
    (rows : list TicketStat) (t : string) :
  countTicket h (row :: rows) t
  = if decide (ticket row = t)
    then {| ticket := ticket row; stat_hours := Js.add (stat_hours row) h |}
         :: rows
    else row :: countTicket h rows t.
Proof.
  unfold countTicket. cbn [list_find]. case_decide; [done|].
  destruct (list_find _ rows) as [[i found]|]; reflexivity.
Qed.

Lemma countTicket_tickets (h : Js.number) (t : string)
    (rows : list TicketStat) :
  map ticket (countTicket h rows t)
  = if decide (t ∈ map ticket rows) then map ticket rows
    else (map ticket rows ++ [t])%list.
Proof.
  induction rows as [|row rows IH].
  - rewrite countTicket_nil. cbn.
    destruct (decide (t ∈ [])) as [Hin|_]; [|done].
    by apply elem_of_nil in Hin.
  - rewrite countTicket_cons, !map_cons.
    destruct (decide (ticket row = t)) as [Hrow|Hrow].
    + rewrite map_cons. cbn [ticket].
      destruct (decide (t ∈ ticket row :: map ticket rows)) as [_|Hin]; [done|].
      exfalso. apply Hin. rewrite Hrow. apply elem_of_cons. by left.
    + rewrite map_cons, IH.
      destruct (decide (t ∈ map ticket rows)) as [Hin|Hin];
        destruct (decide (t ∈ ticket row :: map ticket rows)) as [Hin'|Hin'];
        try done.
      * exfalso. apply Hin'. apply elem_of_cons. by right.
      * apply elem_of_cons in Hin' as [->|?]; done.
Qed.

Lemma hoursOf_cons (t : string) (row : TicketStat) (rows : list TicketStat) :
  hoursOf t (row :: rows)
  = if decide (ticket row = t) then Some (stat_hours row) else hoursOf t rows.
Proof.
  unfold hoursOf. cbn [list_find]. case_decide; [done|].
  by destruct (list_find _ rows) as [[i found]|].
Qed.

Lemma countTicket_hours (h : Js.number) (t t' : string)
    (rows : list TicketStat) :
  hoursOf t (countTicket h rows t')
  = if decide (t' = t) then addTerm (hoursOf t rows) h else hoursOf t rows.
Proof.
  induction rows as [|row rows IH].
  - rewrite countTicket_nil, hoursOf_cons. cbn [ticket stat_hours].
    unfold hoursOf. cbn [list_find]. by destruct (decide (t' = t)).
  - rewrite countTicket_cons.
    destruct (decide (ticket row = t')) as [Hrow|Hrow].
    + rewrite !hoursOf_cons. cbn [ticket stat_hours]. subst t'.
      by destruct (decide (ticket row = t)).
    + rewrite !hoursOf_cons. destruct (decide (ticket row = t)) as [Ht|Ht].
      * destruct (decide (t' = t)); [congruence|done].
      * apply IH.
Qed.

Lemma foldl_countTicket_tickets (h : Js.number) (matches : list string) :
  forall rows,
    map ticket (foldl (countTicket h) rows matches)
    = firstSeen (map ticket rows) matches.
Proof.
  induction matches as [|t matches IH]; intros rows; [done|].
  cbn [foldl firstSeen]. by rewrite IH, countTicket_tickets.
Qed.

Lemma foldl_countTicket_hours (h : Js.number) (t : string)
    (matches : list string) :
  forall rows,
    hoursOf t (foldl (countTicket h) rows matches)
    = foldl addTerm (hoursOf t rows) (replicate (occurrencesIn t matches) h).
Proof.
  induction matches as [|t' matches IH]; intros rows; [done|].
  cbn [foldl]. rewrite IH, countTicket_hours.
  unfold occurrencesIn. rewrite filter_cons.
  by destruct (decide (t' = t)).
Qed.

Lemma firstSeen_app (seen l1 l2 : list string) :
  firstSeen seen (l1 ++ l2) = firstSeen (firstSeen seen l1) l2.
Proof. revert seen. induction l1 as [|t l1 IH]; intros seen; [done|]. apply IH. Qed.

Lemma analyze_tickets (timeEntries : list TimeEntry) :
  forall rows,
    map ticket (foldl (timeEntryReducer ticketRegExp) rows timeEntries)
    = firstSeen (map ticket rows) (matchesIn ticketRegExp timeEntries).
Proof.
  induction timeEntries as [|e timeEntries IH]; intros rows; [done|].
  cbn [foldl matchesIn flat_map]. rewrite IH. unfold timeEntryReducer.
  by rewrite foldl_countTicket_tickets, firstSeen_app.
Qed.

Lemma analyze_hours (t : string) (timeEntries : list TimeEntry) :
  forall rows,
    hoursOf t (foldl (timeEntryReducer ticketRegExp) rows timeEntries)
    = foldl addTerm (hoursOf t rows) (additions ticketRegExp t timeEntries).
Proof.
  induction timeEntries as [|e timeEntries IH]; intros rows; [done|].
  cbn [foldl additions flat_map]. rewrite IH. unfold timeEntryReducer.
  by rewrite foldl_countTicket_hours, foldl_app.
Qed.

Lemma addTerm_started (terms : list Js.number) :
  forall sum, foldl addTerm (Some sum) terms = Some (foldl Js.add sum terms).
Proof. induction terms as [|h terms IH]; intros sum; [done|]. apply IH. Qed.

Lemma addTerm_addUp (terms : list Js.number) :
  foldl addTerm None terms = addUp terms.
Proof. destruct terms as [|h terms]; [done|]. apply addTerm_started. Qed.

End AnalyzeFacts.

Section FirstSeen.

Lemma firstSeen_prefix (matches : list string) :
  forall seen, exists extra, firstSeen seen matches = (seen ++ extra)%list.
Proof.
  induction matches as [|t matches IH]; intros seen.
  - exists []. by rewrite app_nil_r.
  - cbn [firstSeen]. destruct (decide (t ∈ seen)); [apply IH|].
    destruct (IH (seen ++ [t])%list) as [extra ->].
    exists (t :: extra). by rewrite <- app_assoc.
Qed.

Lemma firstSeen_NoDup (matches : list string) :
  forall seen, NoDup seen -> NoDup (firstSeen seen matches).
Proof.
  induction matches as [|t matches IH]; intros seen Hseen; [done|].
  cbn [firstSeen]. apply IH. destruct (decide (t ∈ seen)) as [|Hnew]; [done|].
  apply NoDup_app. split; [done|]. split; [|apply NoDup_singleton].
  intros x Hx ->%list_elem_of_singleton. done.
Qed.

Lemma firstSeen_elem_of (matches : list string) :
  forall seen t, t ∈ firstSeen seen matches <-> t ∈ seen \/ t ∈ matches.
Proof.
  induction matches as [|t' matches IH]; intros seen t.
  - cbn. rewrite elem_of_nil. tauto.
  - cbn [firstSeen]. rewrite IH, elem_of_cons.
    destruct (decide (t' ∈ seen)) as [Hin|Hnew].
    + split; [tauto|]. intros [?|[->|?]]; tauto.
    + rewrite elem_of_app, list_elem_of_singleton. tauto.
Qed.


End FirstSeen.


Lemma hoursOf_row (rows : list TicketStat) (row : TicketStat) :
  NoDup (map ticket rows) -> row ∈ rows ->
  hoursOf (ticket row) rows = Some (stat_hours row).
Proof.
  induction rows as [|first rows IH]; intros Hnodup Hin.
  - by apply elem_of_nil in Hin.
  - rewrite map_cons in Hnodup. apply NoDup_cons in Hnodup as [Hfirst Hnodup].
    rewrite hoursOf_cons. apply elem_of_cons in Hin as [->|Hin].
    + by destruct (decide (ticket first = ticket first)).
    + destruct (decide (ticket first = ticket row)) as [Heq|_]; [|by apply IH].
      exfalso. apply Hfirst. rewrite Heq.
      apply list_elem_of_In, in_map, list_elem_of_In, Hin.
Qed.

(** C8, as stated, fails in its clause on absent notes: an entry whose
    notes are absent is matched as the empty string, and a pattern that
    matches the empty string finds a ticket there.  Under the pattern
    [x*] an entry of one hour without notes gives the row of the empty
    ticket with one hour. *)
Lemma absent_notes_can_contribute :
  analyzeTimeEntries [ {| hours := Js.ofZ 1; notes := None |} ]
    (RegExp.Star (RegExp.Chr "x"))
  = [ {| ticket := ""; stat_hours := Js.ofZ 1 |} ]
  /\ analyzeTimeEntries [ {| hours := Js.ofZ 1; notes := None |} ]
       (RegExp.Star (RegExp.Chr "x"))
     <> analyzeTimeEntries [] (RegExp.Star (RegExp.Chr "x")).
Proof. split; [vm_compute; reflexivity|]. vm_compute. discriminate. Qed.

(** C8, amended.  The hours of each row of the table are what adding
    up gives, in double arithmetic and from left to right, when the
    hours of an entry are a term once for each occurrence of the ticket
    of the row among the matches in the notes of the entry, entry after
    entry, absent notes being matched as the empty string.  An entry
    without notes leaves the table as it is when the expression has no
    match in the empty string.  With the default pattern, the entries of
    2 hours on [fix ABC-1] and 3 hours on [ABC-1 and ABC-2] give 5 hours
    for [ABC-1] and 3 for [ABC-2], and the entry of 1 hour on
    [ABC-1 ABC-1] gives 2 hours for [ABC-1].  Each addition rounds, so
    the hours of a row need not be the hours of an entry times the
    number of occurrences: 0.1 hours on a note that names a ticket ten
    times give 0.9999999999999999, and 0.1 * 10 is 1. *)
Theorem hours_are_summed_per_occurrence
    (ticketRegExp : string -> list string) (timeEntries : list TimeEntry) :
  (forall row, row ∈ analyzeWith ticketRegExp timeEntries ->
     addUp (additions ticketRegExp (ticket row) timeEntries)
     = Some (stat_hours row))
  /\ (ticketRegExp "" = [] ->
      forall rows timeEntry, notes timeEntry = None ->
        timeEntryReducer ticketRegExp rows timeEntry = rows)
  /\ analyzeTimeEntries
       [ {| hours := Js.ofZ 2; notes := Some "fix ABC-1" |};
         {| hours := Js.ofZ 3; notes := Some "ABC-1 and ABC-2" |} ]
       defaultTicketPattern
     = [ {| ticket := "ABC-1"; stat_hours := Js.ofZ 5 |};
         {| ticket := "ABC-2"; stat_hours := Js.ofZ 3 |} ]
  /\ analyzeTimeEntries
       [ {| hours := Js.ofZ 1; notes := Some "ABC-1 ABC-1" |} ]
       defaultTicketPattern
     = [ {| ticket := "ABC-1"; stat_hours := Js.ofZ 2 |} ]
  /\ (analyzeTimeEntries
        [ {| hours := Js.ofQ (1 # 10);
             notes := Some "A-1 A-1 A-1 A-1 A-1 A-1 A-1 A-1 A-1 A-1" |} ]
        defaultTicketPattern
      = [ {| ticket := "A-1";
             stat_hours := Js.StringToNumber "0.9999999999999999" |} ]
      /\ Js.mul (Js.ofQ (1 # 10)) (Js.ofZ 10) = Js.ofZ 1
      /\ Js.StringToNumber "0.9999999999999999" <> Js.ofZ 1).
Proof.
  split; [|split; [|split; [|split]]]; [| |vm_compute; reflexivity..|].
  3: { vm_compute. repeat split; (reflexivity || discriminate). }
  - intros row Hrow.
    rewrite <- (hoursOf_row (analyzeWith ticketRegExp timeEntries) row).
    + unfold analyzeWith. rewrite analyze_hours. apply eq_sym, addTerm_addUp.
    + unfold analyzeWith. rewrite analyze_tickets.
      apply firstSeen_NoDup, NoDup_nil_2.
    + done.
  - intros Hempty rows timeEntry Hnotes.
    unfold timeEntryReducer, notesOrEmpty. rewrite Hnotes.
    cbn [from_option]. by rewrite Hempty.
Qed.

Lemma hours_are_summed_per_occurrence_witness :
  {| ticket := "ABC-1"; stat_hours := Js.ofZ 5 |}
    ∈ analyzeWith (RegExp.matchAll defaultTicketPattern)
        [Sample.entry1; Sample.entry2; Sample.entry3]
  /\ addUp (additions (RegExp.matchAll defaultTicketPattern) "ABC-1"
              [Sample.entry1; Sample.entry2; Sample.entry3])
     = Some (Js.ofZ 5)
  /\ RegExp.matchAll defaultTicketPattern "" = []
  /\ timeEntryReducer (RegExp.matchAll defaultTicketPattern)
       [ {| ticket := "ABC-1"; stat_hours := Js.ofZ 5 |} ] Sample.entry3
     = [ {| ticket := "ABC-1"; stat_hours := Js.ofZ 5 |} ].
Proof.
  assert (Hrow : {| ticket := "ABC-1"; stat_hours := Js.ofZ 5 |}
                   ∈ analyzeWith (RegExp.matchAll defaultTicketPattern)
                       [Sample.entry1; Sample.entry2; Sample.entry3]).
  { apply elem_of_cons. left. vm_compute. reflexivity. }
  split; [exact Hrow|]. split; [|split; [reflexivity|]].
  - exact (proj1 (hours_are_summed_per_occurrence
                    (RegExp.matchAll defaultTicketPattern)
                    [Sample.entry1; Sample.entry2; Sample.entry3]) _ Hrow).
  - exact (proj1 (proj2 (hours_are_summed_per_occurrence
                           (RegExp.matchAll defaultTicketPattern) []))
             eq_refl _ Sample.entry3 eq_refl).
Defined.

(** ** Dates *)

Section DateFacts.

Lemma DayFromYear_1601 : Date.DayFromYear 1601 = -134774.
Proof. reflexivity. Qed.

Lemma YearFromDay_DayFromYear (y k : Z) :
  0 <= k < Date.DaysInYear y -> Date.YearFromDay (Date.DayFromYear y + k) = y.
Proof.
  intros Hk. unfold Date.YearFromDay. rewrite DayFromYear_1601.
  unfold Date.DaysInYear, Date.DayFromYear in *.
  repeat match goal with
  | H : context [ (?a =? ?b) ] |- _ => destruct (Z.eqb_spec a b)
  end; simpl in Hk.
  all: zify; Z.to_euclidean_division_equations; lia.
Qed.

Lemma Day_MakeDate (day time : Z) :
  0 <= time < Date.msPerDay -> Date.Day (Date.MakeDate day time) = day.
Proof.
  unfold Date.Day, Date.MakeDate, Date.msPerDay. intros H.
  zify; Z.to_euclidean_division_equations; lia.
Qed.

Lemma leapDays_cases (y : Z) :
  (Date.leapDays y = 0 \/ Date.leapDays y = 1)
  /\ Date.DaysInYear y = 365 + Date.leapDays y.
Proof.
  unfold Date.leapDays, Date.DaysInYear.
  repeat destruct (negb _); cbn; auto.
Qed.

Ltac month_cases m0 :=
  let H := fresh "Hcases" in
  assert (m0 = 0 \/ m0 = 1 \/ m0 = 2 \/ m0 = 3 \/ m0 = 4 \/ m0 = 5 \/ m0 = 6
          \/ m0 = 7 \/ m0 = 8 \/ m0 = 9 \/ m0 = 10 \/ m0 = 11) as H by lia;
  repeat (destruct H as [H|H]; [rewrite H in *; clear H|]);
  [..|rewrite H in *; clear H].

Lemma calendar_round_trip (y m d time : Z) :
  1 <= m <= 12 -> 1 <= d <= daysInMonth y m -> 0 <= time < Date.msPerDay ->
  let t := Date.MakeDate (Date.MakeDay y (m - 1) d) time in
  Date.YearFromTime t = y /\ Date.MonthFromTime t = m - 1
  /\ Date.DateFromTime t = d.
Proof.
  intros Hm Hd Htime t.
  destruct (leapDays_cases y) as [Hleap Hdays].
  remember (m - 1) as m0 eqn:Hm0.
  assert (Hday : Date.Day t = Date.MakeDay y m0 d) by (by apply Day_MakeDate).
  assert (Hmake : Date.MakeDay y m0 d
                  = Date.DayFromYear y
                    + (Date.daysBeforeMonth (Date.leapDays y) m0 + d - 1)).
  { unfold Date.MakeDay.
    replace (m0 / 12) with 0 by (zify; Z.to_euclidean_division_equations; lia).
    replace (m0 mod 12) with m0 by (zify; Z.to_euclidean_division_equations; lia).
    rewrite Z.add_0_r. lia. }
  assert (Hwithin : 0 <= Date.daysBeforeMonth (Date.leapDays y) m0 + d - 1
                    < Date.DaysInYear y).
  { rewrite Hdays. unfold daysInMonth in Hd.
    month_cases m0; cbn [Date.daysBeforeMonth];
      match goal with H : ?k = m - 1 |- _ =>
        let k1 := eval vm_compute in (k + 1) in
        assert (m = k1) as -> by lia end;
      cbn in Hd; lia. }
  assert (Hyear : Date.YearFromTime t = y).
  { unfold Date.YearFromTime. rewrite Hday, Hmake.
    by apply YearFromDay_DayFromYear. }
  assert (Hdwy : Date.DayWithinYear t
                 = Date.daysBeforeMonth (Date.leapDays y) m0 + d - 1).
  { unfold Date.DayWithinYear. rewrite Hyear, Hday, Hmake. lia. }
  split; [done|].
  unfold Date.DateFromTime, Date.MonthFromTime, Date.InLeapYear.
  rewrite Hyear, Hdwy. unfold daysInMonth in Hd.
  month_cases m0; cbn [Date.daysBeforeMonth];
    match goal with H : ?k = m - 1 |- _ =>
      let k1 := eval vm_compute in (k + 1) in
      assert (m = k1) as -> by lia end;
    cbn in Hd;
    repeat match goal with
    | |- context [ (?a <? ?b) ] => destruct (Z.ltb_spec a b); try lia
    end; split; lia.
Qed.

Lemma legal_bounds (f : Date.fields) :
  Date.legal f = true ->
  1 <= Date.f_month f <= 12 /\ 1 <= Date.f_day f <= 31
  /\ 0 <= Date.f_hour f /\ 0 <= Date.f_minute f <= 59
  /\ 0 <= Date.f_second f <= 59 /\ 0 <= Date.f_ms f <= 999.
Proof.
  unfold Date.legal. intros Hlegal.
  repeat match type of Hlegal with
  | _ && _ = true => apply andb_true_iff in Hlegal as [Hlegal ?]
  end.
  repeat match goal with
  | H : (_ <=? _) = true |- _ => apply Z.leb_le in H
  end.
  lia.
Qed.

Lemma parse_legal (host : Date.Host) (iso : string) (f : Date.fields)
    (t : Z) :
  Date.readFields iso = Some f -> Date.legal f = true ->
  Date.parse host iso = Some t -> t = Date.timeValue host f.
Proof.
  unfold Date.parse, Date.TimeClip. intros -> ->.
  destruct (Z.abs _ <=? _); [|done]. by intros [= <-].
Qed.

(** The fields of a string name its day in UTC when its time of day,
    moved to UTC, stays within the day. *)
Lemma utc_round_trip (host : Date.Host) (f : Date.fields) :
  Date.legal f = true ->
  0 <= utcTimeOfDay host f < Date.msPerDay ->
  Date.f_day f <= daysInMonth (Date.f_year f) (Date.f_month f) ->
  let t := Date.timeValue host f in
  Date.YearFromTime t = Date.f_year f
  /\ Date.MonthFromTime t = Date.f_month f - 1
  /\ Date.DateFromTime t = Date.f_day f.
Proof.
  intros Hlegal%legal_bounds Htime Hday t.
  assert (Ht : t = Date.MakeDate
                     (Date.MakeDay (Date.f_year f) (Date.f_month f - 1)
                        (Date.f_day f))
                     (utcTimeOfDay host f)).
  { unfold t, Date.timeValue, Date.fieldsTime, utcTimeOfDay, Date.MakeDate.
    lia. }
  rewrite Ht. apply calendar_round_trip; [lia|lia|done].
Qed.

(** A string in UTC with an hour below 24 names its day in UTC. *)
Lemma utcTimeOfDay_UTC (host : Date.Host) (f : Date.fields) :
  Date.legal f = true -> Date.f_offset f = Some 0 -> Date.f_hour f <= 23 ->
  0 <= utcTimeOfDay host f < Date.msPerDay.
Proof.
  intros Hlegal%legal_bounds Hoffset Hhour.
  unfold utcTimeOfDay, Date.offsetMs, Date.timeOfDay, Date.MakeTime,
    Date.msPerDay.
  rewrite Hoffset. lia.
Qed.

End DateFacts.

(** C7.  For a start or end date that reads as the instant [t], the
    [from] or [to] parameter of the request is the string [Y-M-D] of the
    UTC year of [t], the UTC month of [t] counted from zero (0 to 11) and
    the UTC day of the month of [t].  The month is the index, not the
    calendar number: for a string of the date-time format with the
    calendar fields year, month (1 to 12) and day, a day that exists in
    that month and a time of day that stays within that day when moved
    to UTC, [M] is the month minus one, [Y] the year and [D] the day.
    A string in UTC, or without a time, with an hour below 24 is such a
    string.  (An empty string is no date to the collector: it sends no
    parameter for it.) *)
Theorem date_parameters_are_utc_fields
    (host : Date.Host) (projectId apiKey apiUrl : string)
    (other : option string) (page iso : string) (t : Z) :
  iso <> "" -> Date.parse host iso = Some t ->
  from (params (requestFor host projectId apiKey apiUrl (Some iso) other
                  page))
  = Some (utcDate t)
  /\ to (params (requestFor host projectId apiKey apiUrl other (Some iso)
                   page))
     = Some (utcDate t)
  /\ 0 <= Date.MonthFromTime t <= 11
  /\ (forall f,
        Date.readFields iso = Some f -> Date.legal f = true ->
        (0 <= utcTimeOfDay host f < Date.msPerDay
         \/ Date.f_offset f = Some 0 /\ Date.f_hour f <= 23) ->
        Date.f_day f <= daysInMonth (Date.f_year f) (Date.f_month f) ->
        Date.YearFromTime t = Date.f_year f
        /\ Date.MonthFromTime t = Date.f_month f - 1
        /\ Date.DateFromTime t = Date.f_day f).
Proof.
  intros Hiso Hparse.
  assert (Hdate : isoTo10KDate host iso = utcDate t)
    by (unfold isoTo10KDate; by rewrite Hparse).
  assert (Htruthy : truthy (Some iso) = true) by (by destruct iso).
  split; [|split; [|split]].
  - cbn [requestFor params from]. by rewrite Htruthy, <- Hdate.
  - cbn [requestFor params to]. by rewrite Htruthy, <- Hdate.
  - unfold Date.MonthFromTime.
    repeat match goal with
    | |- context [ (?a <? ?b) ] => destruct (Z.ltb_spec a b)
    end; lia.
  - intros f Hf Hlegal Htime Hday.
    rewrite (parse_legal host iso f t Hf Hlegal Hparse).
    apply utc_round_trip; [done| |done].
    destruct Htime as [?|[Hoffset Hhour]]; [done|].
    by apply utcTimeOfDay_UTC.
Qed.

Lemma date_parameters_are_utc_fields_witness :
  "2020-01-15T10:20:30Z" <> ""
  /\ Date.parse Sample.host "2020-01-15T10:20:30Z" = Some 1579083630000
  /\ from (params (requestFor Sample.host "7" "secret" defaultApiUrl
                     (Some "2020-01-15T10:20:30Z") None "1"))
     = Some "2020-0-15"
  /\ Date.MonthFromTime 1579083630000 = 1 - 1.
Proof.
  assert (Hiso : "2020-01-15T10:20:30Z" <> "") by discriminate.
  pose proof (date_parameters_are_utc_fields Sample.host "7" "secret"
                defaultApiUrl None "1" "2020-01-15T10:20:30Z" 1579083630000
                Hiso eq_refl)
    as (Hfrom & _ & _ & Hfields).
  split; [exact Hiso|]. split; [reflexivity|]. split.
  - etransitivity; [exact Hfrom|reflexivity].
  - refine (proj1 (proj2 (Hfields (Date.Fields 2020 1 15 10 20 30 0 (Some 0))
                            eq_refl eq_refl _ _))).
    + right. split; [reflexivity|]. vm_compute. intros H; discriminate H.
    + vm_compute. intros H; discriminate H.
Defined.

(** ** The model of the runtime on examples *)

Example split_keeps_empty_pieces :
  Js.split ", " "a, b,c, " = ["a"; "b,c"; ""].
Proof. reflexivity. Qed.

Example Number_reads_literals :
  Js.StringToNumber " 1.5e1 " = Js.ofZ 15
  /\ Js.StringToNumber "0x1F" = Js.ofZ 31
  /\ Js.StringToNumber "-.5" = Js.ofQ (-1 # 2)
  /\ Js.StringToNumber "" = Js.ofZ 0
  /\ Js.StringToNumber "1e" = Js.NaN
  /\ Js.StringToNumber "-Infinity" = Js.negate Js.Infinity
  /\ Js.StringToNumber "12px" = Js.NaN.
Proof. vm_compute. repeat split; reflexivity. Qed.

(** Numbers round as doubles do. *)
Example numbers_are_doubles :
  Js.StringToNumber "9007199254740993" = Js.ofZ 9007199254740992
  /\ Js.StringToNumber "1e400" = Js.Infinity
  /\ Js.StringToNumber "1.7976931348623157e308"
     = Js.ofZ (2 ^ 1024 - 2 ^ 971)
  /\ Js.StringToNumber "5e-324" = Js.ofQ (1 # 2 ^ 1074)
  /\ Js.StringToNumber "2e-324" = Js.ofZ 0
  /\ Js.StringToNumber "0.1" = Js.ofQ (3602879701896397 # 2 ^ 55)
  /\ Js.add (Js.ofQ (1 # 10)) (Js.ofQ (2 # 10))
     = Js.StringToNumber "0.30000000000000004"
  /\ Js.add (Js.ofQ (1 # 10)) (Js.ofQ (2 # 10)) <> Js.ofQ (3 # 10)
  /\ Js.div (Js.mul (Js.ofZ 1) (Js.ofZ 1000)) (Js.ofZ 3)
     = Js.StringToNumber "333.3333333333333"
  /\ Js.div (Js.ofZ 1) (Js.ofZ 0) = Js.Infinity
  /\ Js.div (Js.ofZ 0) (Js.ofZ 0) = Js.NaN
  /\ Js.sub (Js.ofZ 1000) (Js.ofZ 2000) = Js.ofZ (-1000).
Proof. vm_compute. repeat split; (reflexivity || discriminate). Qed.

Example header_key_without_value :
  parse10KResponseHeader "{:period=>60, limit}"
  = {[ "period" := Js.Num (Js.ofZ 60); "limit" := Js.Undefined ]}.
Proof. vm_compute. reflexivity. Qed.

Example header_proto_key_is_dropped :
  parse10KResponseHeader "__proto__=>5" = ∅.
Proof. vm_compute. reflexivity. Qed.

Example dates_in_utc :
  Date.parse Sample.host "1970-01-01" = Some 0
  /\ Date.parse Sample.host "2000-03-01T00:00:00.000Z" = Some 951868800000
  /\ isoTo10KDate Sample.host "2020-01-15T10:20:30.123Z" = "2020-0-15"
  /\ isoTo10KDate Sample.host "2019-12-31" = "2019-11-31"
  /\ isoTo10KDate Sample.host "2021-02-31" = "2021-2-3"
  /\ isoTo10KDate Sample.host "2020-02-29T24:00:00.000Z" = "2020-2-1"
  /\ isoTo10KDate Sample.host "2400-02-29" = "2400-1-29"
  /\ isoTo10KDate Sample.host "1600-12-31" = "1600-11-31"
  /\ isoTo10KDate Sample.host "garbage" = "NaN-NaN-NaN".
Proof. vm_compute. repeat split; reflexivity. Qed.

(** The forms of the date-time string format: a time without seconds or
    without a fraction, a fraction of one to nine digits, an offset, a
    date without day or month, a year of six digits, and local time
    (here one hour ahead of UTC). *)
Example date_time_string_forms :
  isoTo10KDate Sample.host "2020-01-15T10:20:30Z" = "2020-0-15"
  /\ isoTo10KDate Sample.host "2020-01-15T10:20Z" = "2020-0-15"
  /\ isoTo10KDate Sample.host "2020-01-15T10:20:30.5Z" = "2020-0-15"
  /\ isoTo10KDate Sample.host "2020-01-15T10:20:30.123456+00:00" = "2020-0-15"
  /\ isoTo10KDate Sample.host "2020-01-15T23:30:00-02:00" = "2020-0-16"
  /\ isoTo10KDate Sample.host "2020-01-15T00:30:00+01:00" = "2020-0-14"
  /\ isoTo10KDate Sample.host "2020-01" = "2020-0-1"
  /\ isoTo10KDate Sample.host "2020" = "2020-0-1"
  /\ isoTo10KDate Sample.host "2020T10:20Z" = "2020-0-1"
  /\ isoTo10KDate Sample.host "+002020-01-15" = "2020-0-15"
  /\ isoTo10KDate Sample.host "-000001-12-31" = "-1-11-31"
  /\ isoTo10KDate Sample.host "2020-01-15T00:30:00" = "2020-0-14"
  /\ isoTo10KDate Sample.host "2020-01-15T01:00:00" = "2020-0-15"
  /\ Date.parse Sample.host "2020-01-15T10:20:30.129Z"
     = Date.parse Sample.host "2020-01-15T10:20:30.1299Z"
  /\ Date.parse Sample.host "+275760-09-13T00:00:00Z" = Some 8640000000000000
  /\ isoTo10KDate Sample.host "+275760-09-13T00:00:00.001Z" = "NaN-NaN-NaN".
Proof. vm_compute. repeat split; reflexivity. Qed.

(** A string outside the format, or with an element out of range, is
    read as the implementation reads it. *)
Example dates_outside_the_format (host : Date.Host) :
  Date.parse host "2020-01-15 10:20:30"
  = Date.fallback host "2020-01-15 10:20:30"
  /\ Date.parse host "2020-13-01" = Date.fallback host "2020-13-01"
  /\ Date.parse host "2020-01-15T24:00:01Z"
     = Date.fallback host "2020-01-15T24:00:01Z"
  /\ Date.parse host "2020-01-15T24:00:00.0001Z"
     = Date.fallback host "2020-01-15T24:00:00.0001Z"
  /\ Date.parse host "2020-01-15T10:20:30+24:00"
     = Date.fallback host "2020-01-15T10:20:30+24:00"
  /\ Date.parse host "-000000-01-01" = Date.fallback host "-000000-01-01"
  /\ Date.parse host "15 January 2020" = Date.fallback host "15 January 2020"
  /\ Date.parse host "" = Date.fallback host "".
Proof. repeat split; reflexivity. Qed.

Example matchAll_finds_tickets :
  RegExp.matchAll defaultTicketPattern "fix ABC-1, then XY-22z and -3 A- ABC-1"
  = ["ABC-1"; "XY-22"; "ABC-1"].
Proof. vm_compute. reflexivity. Qed.

Example matchAll_empty_matches :
  RegExp.matchAll (RegExp.Star (RegExp.Chr "a")) "baa" = [""; "aa"; ""]
  /\ RegExp.matchAll (RegExp.Star (RegExp.Chr "a")) "" = [""].
Proof. vm_compute. split; reflexivity. Qed.

Example matchAll_backtracks :
  RegExp.matchAll
    (RegExp.Seq
       (RegExp.Star (RegExp.Alt (RegExp.Chr "a")
                       (RegExp.Seq (RegExp.Chr "a") (RegExp.Chr "b"))))
       (RegExp.Chr "c"))
    "xabacabab"
  = ["abac"].
Proof. vm_compute. reflexivity. Qed.

Example pageOfLink_reads_the_query :
  pageOfLink (Sample.link "2") = Some "2"
  /\ pageOfLink "https://api.10000ft.com/api/v1/projects/7/time_entries" = None.
Proof. vm_compute. split; reflexivity. Qed.

Example throttled_run :
  Sample.collect
    [Sample.fulfilled Sample.page1;
     throttledTurn Sample.resetAt 1600000000000;
     Sample.fulfilled Sample.page3] None []
  = ((Sample.firstPage
      ++ [Get (Sample.request "2"); Sleep Reset Js.NaN;
          Get (Sample.request "2"); chunkLog (paging Sample.page3)])%list,
     Returned [Sample.entry1; Sample.entry3]).
Proof. vm_compute. reflexivity. Qed.

Example run_writes_the_table :
  run (Sample.world [Sample.fulfilled Sample.page1; Sample.fulfilled Sample.page2;
                     Sample.fulfilled Sample.page3]) Sample.argv
  = ([ Get (Sample.dated "1"); chunkLog (paging Sample.page1);
       Sleep Advisory (Js.ofZ 600);
       Get (Sample.dated "2"); chunkLog (paging Sample.page2);
       Sleep Advisory (Js.ofZ 600);
       Get (Sample.dated "3"); chunkLog (paging Sample.page3);
       ConsoleLog "Download complete."; Stat "out";
       WriteRecords "out/10kticketstat.csv"
         [ {| ticket := "ABC-1"; stat_hours := Js.ofZ 5 |};
           {| ticket := "ABC-2"; stat_hours := Js.ofZ 3 |} ];
       ConsoleLog "Done. Analysis saved to: out/10kticketstat.csv" ],
     Completed).
Proof. vm_compute. reflexivity. Qed.

(** ** More on the collector *)

Section CollectorRuns.

Variable host : Date.Host.
Variables projectId apiKey apiUrl : string.
Variables startIsoDate endIsoDate : option string.

Local Abbreviation collect :=
  (getTimeEntries host projectId apiKey apiUrl startIsoDate endIsoDate).
Local Abbreviation request :=
  (requestFor host projectId apiKey apiUrl startIsoDate endIsoDate).

Lemma sleepsAt_app (site : Wait) (l1 l2 : list Effect) :
  sleepsAt site (l1 ++ l2) = (sleepsAt site l1 + sleepsAt site l2)%nat.
Proof. unfold sleepsAt. by rewrite filter_app, length_app. Qed.

Lemma requestsIn_app (l1 l2 : list Effect) :
  requestsIn (l1 ++ l2) = (requestsIn l1 + requestsIn l2)%nat.
Proof. unfold requestsIn. by rewrite filter_app, length_app. Qed.

Lemma countTurns_cons (test : Turn -> bool) (turn : Turn) (turns : list Turn) :
  countTurns test (turn :: turns)
  = ((if test turn then 1 else 0) + countTurns test turns)%nat.
Proof.
  unfold countTurns. rewrite filter_cons.
  destruct (test turn); by destruct (decide _).
Qed.

(** What one activation does on a turn that continues. *)
Lemma attempt_continues (page : string) (acc : list TimeEntry) (turn : Turn) :
  continues turn = true ->
  exists effects nextPage,
    attempt page acc turn = (effects, Recur nextPage (acc ++ entriesOf turn)%list)
    /\ sleepsAt Advisory effects = (if isFulfilled turn then 1 else 0)%nat
    /\ sleepsAt Reset effects = (if isFulfilled turn then 0 else 1)%nat
    /\ requestsIn effects = 0%nat.
Proof.
  unfold continues, attempt, onFulfilled, onError, entriesOf, isFulfilled.
  destruct (outcome turn) as [response|error].
  - intros [Hnext [header Hheader]%bool_decide_eq_true]%andb_true_iff.
    rewrite Hnext, Hheader. eexists _, _. by rewrite app_nil_r || done.
  - intros Hgo%negb_true_iff. rewrite Hgo. cbn.
    eexists _, _. by rewrite app_nil_r.
Qed.

Lemma collect_continues (turn : Turn) (script : list Turn)
    (page : option string) (acc : list TimeEntry) :
  continues turn = true ->
  exists effects nextPage,
    collect (turn :: script) page acc
    = (let later := collect script nextPage (acc ++ entriesOf turn)%list in
       ((Get (request (default "1" page)) :: effects ++ later.1)%list, later.2))
    /\ sleepsAt Advisory effects = (if isFulfilled turn then 1 else 0)%nat
    /\ sleepsAt Reset effects = (if isFulfilled turn then 0 else 1)%nat
    /\ requestsIn effects = 0%nat.
Proof.
  intros Hgo.
  destruct (attempt_continues (default "1" page) acc turn Hgo)
    as (effects & nextPage & Hattempt & Hcount).
  exists effects, nextPage. split; [|done].
  by rewrite collect_cons, Hattempt.
Qed.

Lemma sleepsAt_Get (site : Wait) (r : Request) (effects : list Effect) :
  sleepsAt site (Get r :: effects) = sleepsAt site effects.
Proof. unfold sleepsAt. rewrite filter_cons. by destruct (decide _). Qed.

Lemma requestsIn_Get (r : Request) (effects : list Effect) :
  requestsIn (Get r :: effects) = S (requestsIn effects).
Proof. unfold requestsIn. rewrite filter_cons. by destruct (decide _). Qed.

(** X1.  Whatever the number of pages and of rejections with status
    429 on the way: when every turn before the last continues and the
    last turn is a fulfilled page without a next link, the collector
    returns the entries it was given followed by the entries of the
    fulfilled pages in order; it sleeps once at the advisory call site
    for each fulfilled page before the last, once at the throttling call
    site for each rejection, and sends one request for each turn. *)
Theorem any_number_of_pages (before : list Turn) :
  forall (last : Response) (now : Z) (page : option string)
         (acc : list TimeEntry),
    Forall (fun turn => continues turn = true) before ->
    truthy (next (paging last)) = false ->
    let run :=
      collect (before ++ [{| outcome := Fulfilled last; clock := now |}])%list
        page acc in
    run.2 = Returned (acc ++ flat_map entriesOf before ++ data last)%list
    /\ sleepsAt Advisory run.1 = countTurns isFulfilled before
    /\ sleepsAt Reset run.1
       = countTurns (fun turn => negb (isFulfilled turn)) before
    /\ requestsIn run.1 = S (length before).
Proof.
  induction before as [|turn before IH]; intros last now page acc Hall Hlast.
  - cbn [app]. rewrite collect_fulfilled_last by done.
    cbn [fst snd flat_map app]. by repeat split.
  - apply Forall_cons in Hall as [Hturn Hall].
    destruct (collect_continues turn
                (before ++ [{| outcome := Fulfilled last; clock := now |}])%list
                page acc Hturn)
      as (effects & nextPage & Hrun & Hadvisory & Hreset & Hrequests).
    destruct (IH last now nextPage (acc ++ entriesOf turn)%list Hall Hlast)
      as (Hreturned & Hadvisory' & Hreset' & Hrequests').
    change ((turn :: before)
            ++ [{| outcome := Fulfilled last; clock := now |}])%list
      with (turn :: (before
                     ++ [{| outcome := Fulfilled last; clock := now |}]))%list.
    cbv zeta. rewrite Hrun. cbn [fst snd].
    rewrite !sleepsAt_Get, requestsIn_Get, !sleepsAt_app, requestsIn_app.
    rewrite Hreturned, Hadvisory, Hreset, Hrequests, Hadvisory', Hreset',
      Hrequests'.
    rewrite !countTurns_cons. cbn [flat_map length].
    split; [by rewrite <- !app_assoc|].
    by destruct (isFulfilled turn).
Qed.

(** X2.  The collector has no bound on retries or on pages: while every
    turn continues (a page with a next link, or a rejection with status
    429) it has not finished, and it has sent one request more than the
    turns it was given. *)
Theorem continuing_run_is_pending (script : list Turn) :
  forall (page : option string) (acc : list TimeEntry),
    Forall (fun turn => continues turn = true) script ->
    (collect script page acc).2 = Pending
    /\ requestsIn (collect script page acc).1 = S (length script)
    /\ sleepsAt Reset (collect script page acc).1
       = countTurns (fun turn => negb (isFulfilled turn)) script.
Proof.
  induction script as [|turn script IH]; intros page acc Hall; [done|].
  apply Forall_cons in Hall as [Hturn Hall].
  destruct (collect_continues turn script page acc Hturn)
    as (effects & nextPage & Hrun & Hadvisory & Hreset & Hrequests).
  destruct (IH nextPage (acc ++ entriesOf turn)%list Hall)
    as (Hpending & Hrequests' & Hreset').
  rewrite Hrun. cbn [fst snd].
  rewrite sleepsAt_Get, requestsIn_Get, sleepsAt_app, requestsIn_app.
  rewrite Hpending, Hreset, Hrequests, Hreset', Hrequests', countTurns_cons.
  cbn [length]. split; [done|]. split; [done|].
  by destruct (isFulfilled turn).
Qed.

End CollectorRuns.

Section CollectorEdges.

Variable host : Date.Host.
Variables projectId apiKey apiUrl : string.
Variables startIsoDate endIsoDate : option string.

Local Abbreviation collect :=
  (getTimeEntries host projectId apiKey apiUrl startIsoDate endIsoDate).
Local Abbreviation request :=
  (requestFor host projectId apiKey apiUrl startIsoDate endIsoDate).

(** X3.  A page that is fulfilled with a next link but without the
    [x-ratelimit-data] header ends the download with a TypeError: the
    collector logs the page, throws, sends no further request and
    returns none of the entries downloaded so far. *)
Theorem missing_rate_limit_header_is_fatal
    (before after : list Turn) (response : Response) (now : Z)
    (page : option string) (acc : list TimeEntry) (effects : list Effect) :
  collect before page acc = (effects, Pending) ->
  truthy (next (paging response)) = true ->
  headers response !! "x-ratelimit-data" = None ->
  exists message,
    collect (before ++ {| outcome := Fulfilled response; clock := now |}
                         :: after)%list page acc
    = ((effects ++ [chunkLog (paging response)])%list,
       Threw (TypeError message)).
Proof.
  intros Hpending Hnext Hheader.
  destruct (collect_pending_app _ _ _ _ _ _ _ _ _ _ Hpending)
    as (sent & page' & acc' & -> & Happ).
  eexists. rewrite Happ, collect_cons. unfold attempt, onFulfilled.
  cbn [outcome]. rewrite Hnext, Hheader. cbn. by rewrite <- app_assoc.
Qed.

(** X4.  When the next link of a page names no [page] in its query, the
    parameter of the tail call is [undefined] and its default applies:
    the request that follows is for page 1 again. *)
Theorem link_without_page_restarts
    (response : Response) (now : Z) (header : string) (later : list Turn)
    (page : option string) (acc : list TimeEntry) :
  truthy (next (paging response)) = true ->
  headers response !! "x-ratelimit-data" = Some header ->
  pageOfLink (default "" (next (paging response))) = None ->
  exists tail,
    (collect ({| outcome := Fulfilled response; clock := now |} :: later)
       page acc).1
    = Get (request (default "1" page)) :: chunkLog (paging response)
      :: Sleep Advisory (minimumRequestIntervalMs (parse10KResponseHeader header))
      :: Get (request "1") :: tail.
Proof.
  intros Hnext Hheader Hpage.
  rewrite (collect_fulfilled_next _ _ _ _ _ _ _ _ header) by done.
  rewrite Hpage. cbn [fst].
  destruct (collect_starts_with_request host projectId apiKey apiUrl startIsoDate
              endIsoDate later None (acc ++ data response)%list)
    as [tail ->].
  by exists tail.
Qed.

Lemma attempt_sends_nothing (page : string) (acc : list TimeEntry)
    (turn : Turn) (r : Request) :
  Get r ∉ (attempt page acc turn).1.
Proof.
  unfold attempt, onFulfilled, onError, chunkLog.
  destruct (outcome turn) as [response|error]; cbn.
  - destruct (negb _); cbn.
    { intros [=]%list_elem_of_singleton. }
    destruct (_ !! _); cbn.
    + intros [[=]|[=]%list_elem_of_singleton]%elem_of_cons.
    + intros [=]%list_elem_of_singleton.
  - destruct (rethrown error); cbn.
    + intros []%elem_of_nil.
    + intros [=]%list_elem_of_singleton.
Qed.

(** X5.  All the requests of a download go to the same address with
    the same key and the same [from] and [to], ask for 100 entries per
    page, and differ only by the page they ask for. *)
Theorem requests_differ_only_by_page (script : list Turn) :
  forall (page : option string) (acc : list TimeEntry) (r : Request),
    Get r ∈ (collect script page acc).1 ->
    r = request (page_param (params r))
    /\ auth r = apiKey /\ per_page (params r) = 100.
Proof.
  assert (Hone : forall page r, r = request page ->
            r = request (page_param (params r))
            /\ auth r = apiKey /\ per_page (params r) = 100)
    by (by intros page r ->).
  induction script as [|turn script IH]; intros page acc r.
  - rewrite collect_nil. intros [= ->]%list_elem_of_singleton. by eapply Hone.
  - rewrite collect_cons.
    pose proof (attempt_sends_nothing (default "1" page) acc turn r) as Hnone.
    destruct attempt as [effects [c|np acc']]; cbn [fst] in *.
    + intros [[= ->]|Hin]%elem_of_cons; [by eapply Hone|done].
    + intros [[= ->]|[Hin|Hin]%elem_of_app]%elem_of_cons;
        [by eapply Hone|done|by eapply IH].
Qed.

Lemma endsWith_app_char (u : string) (c : ascii) :
  endsWith (u ++ String c "") c = true.
Proof.
  induction u as [|c' u IH]; cbn.
  - apply Ascii.eqb_refl.
  - destruct u; exact IH.
Qed.

(** X6.  The slash at the end of the API address is optional: an
    address without it and the same address with it give the same
    requests. *)
Theorem trailing_slash_is_optional (page : string) :
  endsWith apiUrl "/" = false ->
  requestFor host projectId apiKey (apiUrl ++ "/") startIsoDate endIsoDate
    page
  = request page.
Proof.
  intros Hslash. unfold requestFor.
  rewrite endsWith_app_char, Hslash. f_equal.
  generalize ("projects/" ++ projectId ++ "/time_entries"). intros path.
  clear Hslash. induction apiUrl as [|c u IH]; [done|].
  change (String c ((u ++ "/") ++ "" ++ path) = String c (u ++ "/" ++ path)).
  by rewrite IH.
Qed.

(** X7.  Once the collector has returned or thrown it is done: whatever
    the server would answer afterwards, no further request is sent and
    the result does not change. *)
Theorem finished_run_ignores_the_rest (script : list Turn) :
  forall (page : option string) (acc : list TimeEntry)
         (effects : list Effect) (completion : Completion (list TimeEntry))
         (rest : list Turn),
    collect script page acc = (effects, completion) ->
    completion <> Pending ->
    collect (script ++ rest) page acc = (effects, completion).
Proof.
  induction script as [|turn script IH];
    intros page acc effects completion rest.
  - rewrite collect_nil. by intros [= <- <-].
  - change ((turn :: script) ++ rest)%list with (turn :: (script ++ rest))%list.
    rewrite !collect_cons.
    destruct attempt as [eff [c|np acc']]; [done|].
    destruct (collect script np acc') as [later c] eqn:Hlater.
    cbn [fst snd]. intros [= <- <-] Hdone.
    by rewrite (IH np acc' later c rest Hlater Hdone).
Qed.

End CollectorEdges.

Lemma any_number_of_pages_witness :
  Forall (fun turn => continues turn = true) Sample.throttledScript
  /\ truthy (next (paging Sample.page3)) = false
  /\ (Sample.collect
        (Sample.throttledScript ++ [Sample.fulfilled Sample.page3])%list
        None []).2
     = Returned [Sample.entry1; Sample.entry2; Sample.entry3]
  /\ sleepsAt Advisory
       (Sample.collect
          (Sample.throttledScript ++ [Sample.fulfilled Sample.page3])%list
          None []).1 = 2%nat
  /\ sleepsAt Reset
       (Sample.collect
          (Sample.throttledScript ++ [Sample.fulfilled Sample.page3])%list
          None []).1 = 1%nat
  /\ requestsIn
       (Sample.collect
          (Sample.throttledScript ++ [Sample.fulfilled Sample.page3])%list
          None []).1 = 4%nat.
Proof.
  assert (H : Forall (fun turn => continues turn = true) Sample.throttledScript)
    by (repeat constructor).
  split; [exact H|]. split; [reflexivity|].
  exact (any_number_of_pages Sample.host "7" "secret" defaultApiUrl None None
           Sample.throttledScript Sample.page3 1600000000000 None []
           H eq_refl).
Defined.

Lemma continuing_run_is_pending_witness :
  Forall (fun turn => continues turn = true) Sample.throttledScript
  /\ (Sample.collect Sample.throttledScript None []).2 = Pending
  /\ requestsIn (Sample.collect Sample.throttledScript None []).1 = 4%nat
  /\ sleepsAt Reset (Sample.collect Sample.throttledScript None []).1 = 1%nat.
Proof.
  assert (H : Forall (fun turn => continues turn = true) Sample.throttledScript)
    by (repeat constructor).
  split; [exact H|].
  exact (continuing_run_is_pending Sample.host "7" "secret" defaultApiUrl None None
           Sample.throttledScript None [] H).
Defined.

Lemma missing_rate_limit_header_is_fatal_witness :
  Sample.collect [Sample.fulfilled Sample.page1] None []
  = (Sample.firstPage ++ [Get (Sample.request "2")], Pending)%list
  /\ exists message,
      Sample.collect
        ([Sample.fulfilled Sample.page1]
         ++ Sample.fulfilled Sample.unheaded
            :: [Sample.fulfilled Sample.page3])%list None []
      = (((Sample.firstPage ++ [Get (Sample.request "2")])
          ++ [chunkLog (paging Sample.unheaded)])%list,
         Threw (TypeError message)).
Proof.
  assert (H : Sample.collect [Sample.fulfilled Sample.page1] None []
              = (Sample.firstPage ++ [Get (Sample.request "2")], Pending)%list)
    by (vm_compute; reflexivity).
  split; [exact H|].
  exact (missing_rate_limit_header_is_fatal Sample.host "7" "secret" defaultApiUrl None None
           [Sample.fulfilled Sample.page1] [Sample.fulfilled Sample.page3]
           Sample.unheaded 1600000000000 None [] _ H eq_refl eq_refl).
Defined.

Lemma link_without_page_restarts_witness :
  pageOfLink (default "" (next (paging Sample.unnumbered))) = None
  /\ exists tail,
      (Sample.collect
         [Sample.fulfilled Sample.unnumbered; Sample.fulfilled Sample.page3]
         (Some "5") []).1
      = Get (Sample.request "5") :: chunkLog (paging Sample.unnumbered)
        :: Sleep Advisory
             (minimumRequestIntervalMs
                (parse10KResponseHeader "{period=>60, limit=>100}"))
        :: Get (Sample.request "1") :: tail.
Proof.
  split; [reflexivity|].
  exact (link_without_page_restarts Sample.host "7" "secret" defaultApiUrl None None
           Sample.unnumbered 1600000000000 "{period=>60, limit=>100}"
           [Sample.fulfilled Sample.page3] (Some "5") []
           eq_refl eq_refl eq_refl).
Defined.

Lemma requests_differ_only_by_page_witness :
  Get (Sample.request "2")
    ∈ (Sample.collect [Sample.fulfilled Sample.page1] None []).1
  /\ Sample.request "2"
     = Sample.request (page_param (params (Sample.request "2")))
  /\ auth (Sample.request "2") = "secret"
  /\ per_page (params (Sample.request "2")) = 100.
Proof.
  assert (H : Get (Sample.request "2")
                ∈ (Sample.collect [Sample.fulfilled Sample.page1] None []).1).
  { apply list_elem_of_lookup. by exists 3%nat. }
  split; [exact H|].
  exact (requests_differ_only_by_page Sample.host "7" "secret" defaultApiUrl None None
           [Sample.fulfilled Sample.page1] None [] _ H).
Defined.

Lemma trailing_slash_is_optional_witness :
  endsWith "https://api.10000ft.com/api/v1" "/" = false
  /\ requestFor Sample.host "7" "secret" ("https://api.10000ft.com/api/v1" ++ "/")
       None None "1"
     = requestFor Sample.host "7" "secret" "https://api.10000ft.com/api/v1" None None "1".
Proof.
  split; [reflexivity|].
  exact (trailing_slash_is_optional Sample.host "7" "secret"
           "https://api.10000ft.com/api/v1" None None "1" eq_refl).
Defined.

Lemma finished_run_ignores_the_rest_witness :
  Sample.collect [Sample.fulfilled Sample.page3] None []
  = ([Get (Sample.request "1"); chunkLog (paging Sample.page3)],
     Returned [Sample.entry3])
  /\ Returned [Sample.entry3] <> Pending
  /\ Sample.collect
       ([Sample.fulfilled Sample.page3] ++ [Sample.notFound])%list None []
     = ([Get (Sample.request "1"); chunkLog (paging Sample.page3)],
        Returned [Sample.entry3]).
Proof.
  assert (H : Returned [Sample.entry3] <> @Pending (list TimeEntry)) by done.
  split; [reflexivity|]. split; [exact H|].
  exact (finished_run_ignores_the_rest Sample.host "7" "secret" defaultApiUrl None None
           [Sample.fulfilled Sample.page3] None [] _ _ [Sample.notFound]
           eq_refl H).
Defined.

(** ** More on aggregation *)

Section AnalyzeMore.

Variable ticketRegExp : string -> list string.





Lemma replicate_app_add {A : Type} (n m : nat) (x : A) :
  (replicate n x ++ replicate m x)%list = replicate (n + m) x.
Proof. by rewrite replicate_add. Qed.






Lemma reducer_without_ticket (rows : list TicketStat) (timeEntry : TimeEntry) :
  ~ hasTicket ticketRegExp timeEntry ->
  timeEntryReducer ticketRegExp rows timeEntry = rows.
Proof.
  unfold hasTicket, timeEntryReducer. intros H.
  destruct (ticketRegExp (notesOrEmpty timeEntry)); [done|].
  exfalso. by apply H.
Qed.

(** X9.  Entries without a match in their notes have no influence on the
    table: leaving them out gives the same rows with the same hours in
    the same order. *)
Theorem entries_without_ticket_are_ignored (timeEntries : list TimeEntry) :
  analyzeWith ticketRegExp
    (filter (hasTicket ticketRegExp) timeEntries)
  = analyzeWith ticketRegExp timeEntries.
Proof.
  unfold analyzeWith. generalize (@nil TicketStat).
  induction timeEntries as [|e timeEntries IH]; intros rows; [done|].
  rewrite filter_cons. destruct (decide (hasTicket ticketRegExp e)) as [He|He].
  - cbn [foldl]. apply IH.
  - cbn [foldl]. rewrite (reducer_without_ticket rows e He). apply IH.
Qed.

(** X10.  More entries only add to the table: the rows of the entries so
    far keep their places, and the tickets that are new come after them. *)
Theorem more_entries_append_rows (timeEntries more : list TimeEntry) :
  exists newTickets,
    map ticket (analyzeWith ticketRegExp (timeEntries ++ more))
    = (map ticket (analyzeWith ticketRegExp timeEntries) ++ newTickets)%list.
Proof.
  unfold analyzeWith. rewrite foldl_app, analyze_tickets.
  apply firstSeen_prefix.
Qed.

Lemma elem_of_matchesIn (t : string) (es : list TimeEntry) :
  t ∈ matchesIn ticketRegExp es
  <-> exists e, e ∈ es /\ t ∈ ticketRegExp (notesOrEmpty e).
Proof.
  unfold matchesIn. rewrite list_elem_of_In, in_flat_map.
  split; intros (e & He & Ht); exists e;
    by rewrite ?list_elem_of_In in *.
Qed.

(** X11.  The order of the entries decides the order of the rows and
    the order in which the hours of a ticket are added, nothing else:
    two entry lists that are permutations of each other give tables
    with the same tickets, and for each ticket the same terms to add
    up, in another order.  The hours of a row are what adding up its
    terms from left to right gives, so the two tables can differ by the
    rounding of the additions, and by nothing else. *)
Theorem entry_order_permutes_the_terms (es es' : list TimeEntry) :
  es ≡ₚ es' ->
  forall t,
    (t ∈ map ticket (analyzeWith ticketRegExp es)
     <-> t ∈ map ticket (analyzeWith ticketRegExp es'))
    /\ additions ticketRegExp t es ≡ₚ additions ticketRegExp t es'
    /\ hoursOf t (analyzeWith ticketRegExp es)
       = addUp (additions ticketRegExp t es)
    /\ hoursOf t (analyzeWith ticketRegExp es')
       = addUp (additions ticketRegExp t es').
Proof.
  intros Hperm t. split; [|split; [|split]].
  - unfold analyzeWith. rewrite !analyze_tickets. cbn [map].
    rewrite !firstSeen_elem_of, !elem_of_matchesIn.
    by setoid_rewrite Hperm.
  - unfold additions. by apply Permutation_flat_map.
  - unfold analyzeWith. by rewrite analyze_hours, <- addTerm_addUp.
  - unfold analyzeWith. by rewrite analyze_hours, <- addTerm_addUp.
Qed.

End AnalyzeMore.

Lemma entry_order_permutes_the_terms_witness :
  [Sample.entry1; Sample.entry2] ≡ₚ [Sample.entry2; Sample.entry1]
  /\ additions (RegExp.matchAll defaultTicketPattern) "ABC-1"
       [Sample.entry1; Sample.entry2]
     ≡ₚ additions (RegExp.matchAll defaultTicketPattern) "ABC-1"
          [Sample.entry2; Sample.entry1]
  /\ hoursOf "ABC-1"
       (analyzeWith (RegExp.matchAll defaultTicketPattern)
          [Sample.entry2; Sample.entry1])
     = addUp [Js.ofZ 3; Js.ofZ 2].
Proof.
  assert (H : [Sample.entry1; Sample.entry2] ≡ₚ [Sample.entry2; Sample.entry1])
    by apply perm_swap.
  split; [exact H|].
  pose proof (entry_order_permutes_the_terms
                (RegExp.matchAll defaultTicketPattern) _ _ H "ABC-1")
    as (_ & Hterms & _ & Hsum).
  split; [exact Hterms|]. etransitivity; [exact Hsum|reflexivity].
Defined.

(** Three entries on one ticket with 0.1, 0.2 and 0.3 hours: the total
    depends on the order of the entries. *)
Example entry_order_changes_rounding :
  let entry q := {| hours := Js.ofQ q; notes := Some "ABC-1" |} in
  analyzeTimeEntries [entry (1 # 10); entry (2 # 10); entry (3 # 10)]
    defaultTicketPattern
  = [ {| ticket := "ABC-1";
         stat_hours := Js.StringToNumber "0.6000000000000001" |} ]
  /\ analyzeTimeEntries [entry (3 # 10); entry (2 # 10); entry (1 # 10)]
       defaultTicketPattern
     = [ {| ticket := "ABC-1"; stat_hours := Js.StringToNumber "0.6" |} ]
  /\ Js.StringToNumber "0.6000000000000001" <> Js.StringToNumber "0.6".
Proof. vm_compute. repeat split; (reflexivity || discriminate). Qed.

(** ** More on the whole run *)

Section RunMore.

Variable world : World.
Variable argv : Argv.

Lemma downloads_iff :
  downloads argv
  <-> (arg_v argv || arg_version argv) = false
      /\ (arg_h argv || arg_help argv
          || negb (length (positional argv) =? length requiredArgNames)%nat)
         = false.
Proof.
  unfold downloads. change (length requiredArgNames) with 3%nat.
  destruct (arg_v argv), (arg_version argv), (arg_h argv), (arg_help argv);
    cbn; try (split; intros H; decompose [and] H; discriminate).
  destruct (Nat.eqb_spec (length (positional argv)) 3); cbn; intuition congruence.
Qed.

Lemma run_of_download :
  downloads argv ->
  run world argv
  = match download world argv (script world) with
    | (effects, Pending) => (effects, Waiting)
    | (effects, Threw error) => fail effects error
    | (effects, Returned timeEntries) =>
        let downloaded := (effects ++ [ConsoleLog "Download complete."])%list in
        let ticketPattern :=
          orElse (ticket_pattern argv) defaultTicketPatternSource in
        match regExp world ticketPattern with
        | None => fail downloaded (SyntaxError ticketPattern)
        | Some ticketRegExp =>
            let statistics := analyzeWith ticketRegExp timeEntries in
            let userOutputPath := default "" (positional argv !! 1%nat) in
            match resolveOutputPath world userOutputPath with
            | (stats, Returned outputPath) =>
                let before := (downloaded ++ stats)%list in
                match saveStatisticsAsCsv world statistics outputPath with
                | (writes, Returned _) =>
                    ((before ++ writes
                      ++ [ConsoleLog
                            ("Done. Analysis saved to: " ++ outputPath)])%list,
                     Completed)
                | (writes, Threw error) => fail (before ++ writes)%list error
                | (writes, Pending) => ((before ++ writes)%list, Waiting)
                end
            | (stats, Threw error) => fail (downloaded ++ stats)%list error
            | (stats, Pending) => ((downloaded ++ stats)%list, Waiting)
            end
        end
    end.
Proof.
  intros [Hflags Hhelp]%downloads_iff. unfold run, download.
  by rewrite Hflags, Hhelp.
Qed.

Lemma run_without_download :
  ~ downloads argv ->
  run world argv = ([ConsoleLog (version world)], Completed)
  \/ exists line, run world argv
                  = ([ConsoleLog ""; ConsoleLog ("usage: 10kticketstat " ++ line);
                      ConsoleLog ("       [--api-url] [--start-iso-date] [--end-iso-date] [--ticket-pattern]"
                                  ++ String "010" "")],
                     Completed).
Proof.
  rewrite downloads_iff. intros Hno. unfold run.
  destruct (arg_v argv || arg_version argv); [by left|].
  destruct (arg_h argv || arg_help argv || _); [|by exfalso; apply Hno].
  right. by eexists.
Qed.

Lemma download_never_writes (turns : list Turn) (path : string)
    (records : list TicketStat) :
  WriteRecords path records ∉ (download world argv turns).1.
Proof.
  intros Hin.
  pose proof (collect_download_effects (dateHost world)
                (default "" (positional argv !! 0%nat))
                (default "" (positional argv !! 2%nat))
                (orElse (api_url argv) defaultApiUrl)
                (Some (orElse (start_iso_date argv) (defaultStartIsoDate world)))
                (end_iso_date argv) turns None []) as Hall.
  rewrite Forall_forall in Hall.
  by destruct (download_effect_is_no_output _ (Hall _ Hin)) as [H _];
    apply (H path records).
Qed.

(** X12.  Records are written only by a run that was asked to download
    and whose download returned: they are the table of all the entries
    returned, under the expression that the engine makes of the pattern
    given or of the default one, and they go to the resolved output
    path. *)
Theorem records_come_from_a_finished_download
    (path : string) (records : list TicketStat) :
  WriteRecords path records ∈ (run world argv).1 ->
  downloads argv
  /\ exists effects timeEntries ticketRegExp,
      download world argv (script world) = (effects, Returned timeEntries)
      /\ regExp world (orElse (ticket_pattern argv) defaultTicketPatternSource)
         = Some ticketRegExp
      /\ records = analyzeWith ticketRegExp timeEntries
      /\ (resolveOutputPath world (default "" (positional argv !! 1%nat))).2
         = Returned path
      /\ writeFails world path = None.
Proof.
  destruct (decide (downloads argv)) as [Hdownloads|Hno].
  2: { destruct (run_without_download Hno) as [->|[line ->]]; cbn [fst];
       rewrite ?elem_of_cons, elem_of_nil; intros H; exfalso;
       decompose [or] H; discriminate || done. }
  rewrite (run_of_download Hdownloads). intros Hin. split; [done|].
  pose proof (download_never_writes (script world) path records) as Hnever.
  destruct (download world argv (script world))
    as [effects [timeEntries|error|]] eqn:Hdownload; cbn [fst] in *.
  - cbv zeta in Hin.
    destruct (regExp world _) as [ticketRegExp|] eqn:Hpattern.
    + exists effects, timeEntries, ticketRegExp. split; [done|]. split; [done|].
      unfold resolveOutputPath, saveStatisticsAsCsv in *.
      cbn [fst snd] in *.
      destruct (writeFails world _) as [message|] eqn:Hwrite;
        cbn [fst fail] in Hin.
      * exfalso. rewrite !elem_of_app, !elem_of_cons, !elem_of_nil in Hin.
        decompose [or] Hin; discriminate || done.
      * rewrite !elem_of_app, !elem_of_cons, !elem_of_nil in Hin.
        decompose [or] Hin; try (discriminate || done).
        match goal with H : WriteRecords _ _ = WriteRecords _ _ |- _ =>
          injection H as -> -> end.
        done.
    + exfalso. unfold fail in Hin. cbn [fst] in Hin.
      rewrite !elem_of_app, !elem_of_cons, !elem_of_nil in Hin.
      decompose [or] Hin; discriminate || done.
  - exfalso. unfold fail in Hin. cbn [fst] in Hin.
    rewrite elem_of_app, list_elem_of_singleton in Hin.
    destruct Hin as [?|[=]]. done.
  - done.
Qed.

(** X13.  The process exits with a status in three cases only, and the
    status is 1: the download threw; the download returned and the
    ticket pattern, the one given or the default one, is no regular
    expression; or the download returned, the pattern is one and
    writing the records failed.  In each the error is the last thing
    reported, and no records were written. *)
Theorem exit_status_is_one_after_an_error (code : Z) :
  (run world argv).2 = Exited code ->
  let ticketPattern :=
    orElse (ticket_pattern argv) defaultTicketPatternSource in
  code = 1 /\ downloads argv
  /\ (forall path records, WriteRecords path records ∉ (run world argv).1)
  /\ exists error,
      last (run world argv).1 = Some (ConsoleError error)
      /\ ((download world argv (script world)).2 = Threw error
          \/ (exists timeEntries,
                (download world argv (script world)).2 = Returned timeEntries
                /\ regExp world ticketPattern = None
                /\ error = SyntaxError ticketPattern)
          \/ exists timeEntries ticketRegExp path message,
               (download world argv (script world)).2 = Returned timeEntries
               /\ regExp world ticketPattern = Some ticketRegExp
               /\ (resolveOutputPath world
                     (default "" (positional argv !! 1%nat))).2
                  = Returned path
               /\ writeFails world path = Some message
               /\ error = WriteError message).
Proof.
  destruct (decide (downloads argv)) as [Hdownloads|Hno].
  2: { by destruct (run_without_download Hno) as [->|[line ->]]. }
  rewrite (run_of_download Hdownloads).
  pose proof (download_never_writes (script world)) as Hd.
  destruct (download world argv (script world))
    as [effects [timeEntries|error|]] eqn:Hdownload; cbn [fst snd] in *.
  - cbv zeta.
    destruct (regExp world _) as [ticketRegExp|] eqn:Hpattern.
    + unfold resolveOutputPath, saveStatisticsAsCsv. cbn [fst snd].
      destruct (writeFails world _) as [message|] eqn:Hwrite;
        cbn [fst snd fail]; [|done].
      intros [= <-]. split; [done|]. split; [done|]. split.
      * intros path records Hin.
        rewrite !elem_of_app, !elem_of_cons, !elem_of_nil in Hin.
        specialize (Hd path records).
        decompose [or] Hin; discriminate || done.
      * exists (WriteError message). split; [by rewrite last_snoc|].
        right. right. eexists _, _, _, message. by repeat split.
    + unfold fail. cbn [fst snd]. intros [= <-].
      split; [done|]. split; [done|]. split.
      * intros path records Hin.
        rewrite !elem_of_app, !elem_of_cons, !elem_of_nil in Hin.
        specialize (Hd path records).
        decompose [or] Hin; discriminate || done.
      * eexists. split; [by rewrite last_snoc|].
        right. left. by eexists.
  - unfold fail. cbn [fst snd]. intros [= <-].
    split; [done|]. split; [done|]. split.
    + intros path records [Hin|[=]%list_elem_of_singleton]%elem_of_app.
      by apply (Hd path records).
    + exists error. split; [by rewrite last_snoc|by left].
  - done.
Qed.

(** X14.  With a version or help flag, or without exactly three
    positional arguments, the run only prints: it ends without an error
    status and has sent no request, read no file status and written no
    records. *)
Theorem no_download_without_three_arguments :
  ~ downloads argv ->
  (run world argv).2 = Completed
  /\ Forall (fun effect => isConsoleLog effect = true) (run world argv).1.
Proof.
  intros Hno.
  destruct (run_without_download Hno) as [->|[line ->]];
    split; by repeat constructor.
Qed.

End RunMore.

Lemma records_come_from_a_finished_download_witness :
  WriteRecords "out/10kticketstat.csv"
    [ {| ticket := "ABC-1"; stat_hours := Js.ofZ 5 |};
      {| ticket := "ABC-2"; stat_hours := Js.ofZ 3 |} ]
    ∈ (run Sample.threePages Sample.argv).1
  /\ exists effects timeEntries ticketRegExp,
      download Sample.threePages Sample.argv (script Sample.threePages)
      = (effects, Returned timeEntries)
      /\ regExp Sample.threePages
           (orElse (ticket_pattern Sample.argv) defaultTicketPatternSource)
         = Some ticketRegExp
      /\ [ {| ticket := "ABC-1"; stat_hours := Js.ofZ 5 |};
           {| ticket := "ABC-2"; stat_hours := Js.ofZ 3 |} ]
         = analyzeWith ticketRegExp timeEntries
      /\ (resolveOutputPath Sample.threePages
            (default "" (positional Sample.argv !! 1%nat))).2
         = Returned "out/10kticketstat.csv"
      /\ writeFails Sample.threePages "out/10kticketstat.csv" = None.
Proof.
  assert (H : WriteRecords "out/10kticketstat.csv"
                [ {| ticket := "ABC-1"; stat_hours := Js.ofZ 5 |};
                  {| ticket := "ABC-2"; stat_hours := Js.ofZ 3 |} ]
                ∈ (run Sample.threePages Sample.argv).1).
  { apply list_elem_of_lookup. exists 10%nat. vm_compute. reflexivity. }
  split; [exact H|].
  exact (proj2 (records_come_from_a_finished_download
                  Sample.threePages Sample.argv _ _ H)).
Defined.

Lemma exit_status_is_one_after_an_error_witness :
  (run Sample.threePages Sample.unbalanced).2 = Exited 1
  /\ downloads Sample.unbalanced
  /\ (forall path records,
        WriteRecords path records
        ∉ (run Sample.threePages Sample.unbalanced).1)
  /\ last (run Sample.threePages Sample.unbalanced).1
     = Some (ConsoleError (SyntaxError "(")).
Proof.
  assert (H : (run Sample.threePages Sample.unbalanced).2 = Exited 1)
    by reflexivity.
  split; [exact H|].
  destruct (exit_status_is_one_after_an_error Sample.threePages
              Sample.unbalanced 1 H)
    as (_ & Hdownloads & Hnever & _).
  split; [exact Hdownloads|]. split; [exact Hnever|]. reflexivity.
Defined.

Lemma no_download_without_three_arguments_witness :
  ~ downloads Sample.bare
  /\ (run Sample.threePages Sample.bare).2 = Completed
  /\ Forall (fun effect => isConsoleLog effect = true)
       (run Sample.threePages Sample.bare).1.
Proof.
  assert (H : ~ downloads Sample.bare)
    by (intros (_ & _ & _ & _ & Hlen); discriminate Hlen).
  split; [exact H|].
  exact (no_download_without_three_arguments Sample.threePages Sample.bare H).
Defined.

(** ** More on the rate-limit header *)

Section HeaderMore.

Lemma app_String (c : ascii) (a b : string) :
  String c a ++ b = String c (a ++ b).
Proof. reflexivity. Qed.

Lemma string_app_assoc (a b c : string) : (a ++ b) ++ c = a ++ b ++ c.
Proof.
  induction a as [|x a IH]; [done|]. by rewrite !app_String, IH.
Qed.

Lemma string_app_nil_r (a : string) : a ++ "" = a.
Proof. induction a as [|x a IH]; [done|]. by rewrite app_String, IH. Qed.

Lemma removeAll_app (class : ascii -> bool) (a b : string) :
  Js.removeAll class (a ++ b)
  = Js.removeAll class a ++ Js.removeAll class b.
Proof.
  induction a as [|x a IH]; [done|]. rewrite app_String. cbn [Js.removeAll].
  destruct (class x); [done|]. by rewrite app_String, IH.
Qed.

Lemma set_storable (o : gmap string Js.value) (k : string) (v : Js.value) :
  (forall k' v', o !! k' = Some v' -> storable v') -> storable v ->
  forall k' v', Js.set o k v !! k' = Some v' -> storable v'.
Proof.
  intros Ho Hv k' v'. unfold Js.set.
  destruct (decide (k = "__proto__")); [apply Ho|].
  rewrite lookup_insert. destruct (decide (k = k')); [|apply Ho].
  by intros [= <-].
Qed.

(** X15.  Whatever the header, every value of the object the parser
    returns is [undefined], a string that [Number] does not read as a
    number, or a number other than [NaN]: the parser never stores [NaN]
    and never leaves a numeric string unconverted. *)
Theorem parsed_values_are_storable (header k : string) (v : Js.value) :
  parse10KResponseHeader header !! k = Some v -> storable v.
Proof.
  unfold parse10KResponseHeader.
  generalize (map (Js.split "=>")
                (Js.split ", " (Js.removeAll isBraceOrColon header))).
  intros pieces. revert k v.
  assert (H : forall k v, (∅ : gmap string Js.value) !! k = Some v -> storable v)
    by (intros k v; by rewrite lookup_empty).
  revert H. generalize (∅ : gmap string Js.value).
  induction pieces as [|keyValue pieces IH]; intros o Ho; [exact Ho|].
  cbn [foldl]. apply IH. unfold headerReducer. apply set_storable; [done|].
  destruct (keyValue !! 1%nat) as [value|]; cbn [Js.Number Js.ofString].
  - destruct (Js.isNaN (Js.StringToNumber value)) eqn:Hvalue.
    + by apply isNaN_true.
    + by apply isNaN_false.
  - by change (Js.isNaN Js.NaN) with true.
Qed.

(** X16.  Braces and colons count for nothing, wherever they stand in
    the header: a header and the same header with one of them inserted
    parse to the same object. *)
Theorem braces_and_colons_are_ignored (a b : string) (c : ascii) :
  isBraceOrColon c = true ->
  parse10KResponseHeader (a ++ String c b) = parse10KResponseHeader (a ++ b).
Proof.
  intros Hc. unfold parse10KResponseHeader.
  rewrite !removeAll_app. cbn [Js.removeAll]. by rewrite Hc.
Qed.

End HeaderMore.

Lemma parsed_values_are_storable_witness :
  parse10KResponseHeader "{period=>60, limit=>many, x}" !! "limit"
  = Some (Js.Str "many")
  /\ storable (Js.Str "many").
Proof.
  assert (H : parse10KResponseHeader "{period=>60, limit=>many, x}" !! "limit"
              = Some (Js.Str "many")) by (vm_compute; reflexivity).
  split; [exact H|].
  exact (parsed_values_are_storable _ _ _ H).
Defined.

Lemma braces_and_colons_are_ignored_witness :
  isBraceOrColon ":" = true
  /\ parse10KResponseHeader ("{" ++ String ":" "period=>60}")
     = parse10KResponseHeader ("{" ++ "period=>60}").
Proof.
  split; [reflexivity|].
  exact (braces_and_colons_are_ignored "{" "period=>60}" ":" eq_refl).
Defined.

(** ** Numbers in a header *)

Section HeaderNumbers.

Lemma readDigits_uint_pos (d : Decimal.uint) :
  forall (acc : positive) (n : nat),
    Js.readDigits 10 (NilEmpty.string_of_uint d) (Z.pos acc) n
    = (Z.pos (Pos.of_uint_acc d acc),
       (n + String.length (NilEmpty.string_of_uint d))%nat, "").
Proof.
  induction d as [|d IH|d IH|d IH|d IH|d IH|d IH|d IH|d IH|d IH|d IH];
    intros acc n;
    [cbn; by rewrite Nat.add_0_r|..];
    cbn [NilEmpty.string_of_uint Js.readDigits String.length Pos.of_uint_acc];
    match goal with
    | |- context [Js.digitValue 10 ?c] =>
        let v := eval vm_compute in (Js.digitValue 10 c) in
        change (Js.digitValue 10 c) with v
    end; cbn iota beta;
    match goal with
    | |- context [Js.readDigits 10 _ ?a] =>
        match goal with
        | |- context [Pos.of_uint_acc d ?p] =>
            replace a with (Z.pos p) by lia
        end
    end; rewrite IH; f_equal; f_equal; lia.
Qed.

Lemma readDigits_uint (d : Decimal.uint) :
  forall n : nat,
    Js.readDigits 10 (NilEmpty.string_of_uint d) 0 n
    = (Z.of_N (Pos.of_uint d),
       (n + String.length (NilEmpty.string_of_uint d))%nat, "").
Proof.
  induction d as [|d IH|d|d|d|d|d|d|d|d|d]; intros n;
    [cbn; by rewrite Nat.add_0_r|..];
    cbn [NilEmpty.string_of_uint Js.readDigits String.length Pos.of_uint];
    match goal with
    | |- context [Js.digitValue 10 ?c] =>
        let v := eval vm_compute in (Js.digitValue 10 c) in
        change (Js.digitValue 10 c) with v
    end; cbn iota beta.
  - change (0 * 10 + 0) with 0. rewrite IH. f_equal; f_equal; lia.
  - change (0 * 10 + 1) with 1.
    rewrite readDigits_uint_pos. f_equal; f_equal; lia.
  - change (0 * 10 + 2) with 2.
    rewrite readDigits_uint_pos. f_equal; f_equal; lia.
  - change (0 * 10 + 3) with 3.
    rewrite readDigits_uint_pos. f_equal; f_equal; lia.
  - change (0 * 10 + 4) with 4.
    rewrite readDigits_uint_pos. f_equal; f_equal; lia.
  - change (0 * 10 + 5) with 5.
    rewrite readDigits_uint_pos. f_equal; f_equal; lia.
  - change (0 * 10 + 6) with 6.
    rewrite readDigits_uint_pos. f_equal; f_equal; lia.
  - change (0 * 10 + 7) with 7.
    rewrite readDigits_uint_pos. f_equal; f_equal; lia.
  - change (0 * 10 + 8) with 8.
    rewrite readDigits_uint_pos. f_equal; f_equal; lia.
  - change (0 * 10 + 9) with 9.
    rewrite readDigits_uint_pos. f_equal; f_equal; lia.
Qed.

Lemma isDigit_cases (c : ascii) :
  isDigit c = true ->
  c = "0"%char \/ c = "1"%char \/ c = "2"%char \/ c = "3"%char
  \/ c = "4"%char \/ c = "5"%char \/ c = "6"%char \/ c = "7"%char
  \/ c = "8"%char \/ c = "9"%char.
Proof.
  destruct c as [[] [] [] [] [] [] [] []]; vm_compute; intros H;
    try discriminate H; tauto.
Qed.

Ltac digit_cases c H :=
  apply isDigit_cases in H;
  repeat (destruct H as [H|H]; [rewrite H in *; clear H|]);
  [..|rewrite H in *; clear H].

Lemma string_of_uint_digits (d : Decimal.uint) :
  allDigits (NilEmpty.string_of_uint d) = true.
Proof. induction d; cbn [NilEmpty.string_of_uint allDigits]; by rewrite ?IHd. Qed.

Lemma allDigits_lacks (c : ascii) (s : string) :
  isDigit c = false -> allDigits s = true -> lacks c s = true.
Proof.
  intros Hc. induction s as [|x s IH]; [done|]. cbn [allDigits lacks].
  intros [Hx Hs]%andb_true_iff. rewrite (IH Hs), andb_true_r.
  apply negb_true_iff. destruct (Ascii.eqb_spec x c) as [->|]; [|done].
  congruence.
Qed.

Lemma trimStart_digits (c : ascii) (s : string) :
  isDigit c = true -> Js.trimStart (String c s) = String c s.
Proof. intros H. digit_cases c H; reflexivity. Qed.

Lemma trimEnd_digits (s : string) :
  allDigits s = true -> Js.trimEnd s = s.
Proof.
  induction s as [|c s IH]; [done|]. cbn [allDigits Js.trimEnd].
  intros [Hc Hs]%andb_true_iff. rewrite (IH Hs).
  destruct s; [|done]. digit_cases c Hc; reflexivity.
Qed.

(** [Number] reads a string of digits as the integer that [readDigits]
    computes. *)
Lemma StringToNumber_digits (c : ascii) (s : string) (z : Z) (n : nat) :
  isDigit c = true -> allDigits s = true ->
  Js.readDigits 10 (String c s) 0 0 = (z, S n, "") ->
  Js.StringToNumber (String c s) = Js.ofZ z.
Proof.
  intros Hc Hs Hread.
  assert (Hunsigned : Js.readUnsigned (String c s) = Js.ofZ z).
  { unfold Js.readUnsigned.
    replace (String c s =? "Infinity")%string with false
      by (clear Hread; digit_cases c Hc; reflexivity).
    unfold Js.readUnsignedDecimal. rewrite Hread. cbn [Js.readExponent].
    unfold Js.ofZ. f_equal. rewrite <- (Qred_inject_Z z). apply Qred_complete.
    change (Qpower (inject_Z 10) (0 - Z.of_nat 0)) with 1%Q.
    change (10 ^ Z.of_nat 0) with 1.
    rewrite Z.mul_1_r, Z.add_0_r. unfold Qeq, Qmult, inject_Z.
    cbn [Qnum Qden]. lia. }
  unfold Js.StringToNumber, Js.trim.
  rewrite (trimStart_digits c s Hc), trimEnd_digits
    by (cbn [allDigits]; by rewrite Hc, Hs).
  rewrite <- Hunsigned. clear Hread Hunsigned.
  destruct s as [|p s]; [digit_cases c Hc; reflexivity|].
  cbn [allDigits] in Hs. apply andb_true_iff in Hs as [Hp _].
  digit_cases c Hc; try reflexivity.
  digit_cases p Hp; reflexivity.
Qed.

(** The number printed for a natural number is read back by [Number]. *)
Lemma Number_show (z : Z) :
  0 <= z ->
  allDigits (show (Some z)) = true
  /\ Js.StringToNumber (show (Some z)) = Js.ofZ z.
Proof.
  intros Hz. unfold show.
  pose proof (DecimalZ.of_to z) as Hround.
  destruct (Z.to_int z) as [d|d] eqn:Hd.
  2: { destruct z; cbn in Hd; try discriminate Hd. lia. }
  cbn [NilZero.string_of_int]. cbn [Z.of_int] in Hround.
  unfold Z.of_uint in Hround.
  destruct d as [|d|d|d|d|d|d|d|d|d|d];
    [cbn in Hround; subst z; split; reflexivity|..];
    (split; [apply (string_of_uint_digits (_ d))|]);
    cbn [NilZero.string_of_uint NilEmpty.string_of_uint];
    (eapply (StringToNumber_digits _ _ z
               (String.length (NilEmpty.string_of_uint d)));
     [reflexivity|apply string_of_uint_digits|]);
    match goal with
    | |- Js.readDigits 10 (String ?c ?s) 0 0 = _ =>
        change (String c s)
          with (NilEmpty.string_of_uint
                  ltac:(match c with
                        | "0"%char => exact (Decimal.D0 d)
                        | "1"%char => exact (Decimal.D1 d)
                        | "2"%char => exact (Decimal.D2 d)
                        | "3"%char => exact (Decimal.D3 d)
                        | "4"%char => exact (Decimal.D4 d)
                        | "5"%char => exact (Decimal.D5 d)
                        | "6"%char => exact (Decimal.D6 d)
                        | "7"%char => exact (Decimal.D7 d)
                        | "8"%char => exact (Decimal.D8 d)
                        | "9"%char => exact (Decimal.D9 d)
                        end))
    end; rewrite readDigits_uint, Hround; reflexivity.
Qed.

Lemma lacks_app (c : ascii) (a b : string) :
  lacks c (a ++ b) = lacks c a && lacks c b.
Proof.
  induction a as [|x a IH]; [done|]. rewrite app_String. cbn [lacks].
  by rewrite IH, andb_assoc.
Qed.

Lemma splitFrom_lacks (c : ascii) (t s : string) :
  forall cur rest,
    lacks c s = true ->
    Js.splitFrom (String c t) 0 cur (s ++ rest)
    = Js.splitFrom (String c t) 0 (cur ++ s) rest.
Proof.
  induction s as [|x s IH]; intros cur rest Hs.
  - by rewrite string_app_nil_r.
  - cbn [lacks] in Hs. apply andb_true_iff in Hs as [Hx Hs].
    apply negb_true_iff in Hx. rewrite app_String.
    cbn [Js.splitFrom String.prefix].
    destruct (ascii_dec c x) as [->|_]; [by rewrite Ascii.eqb_refl in Hx|].
    rewrite (IH _ _ Hs). f_equal. by rewrite string_app_assoc.
Qed.

Lemma splitFrom_skip (sep t : string) :
  forall cur rest,
    Js.splitFrom sep (String.length t) cur (t ++ rest)
    = Js.splitFrom sep 0 cur rest.
Proof.
  induction t as [|x t IH]; intros cur rest; [done|].
  rewrite app_String. cbn [String.length Js.splitFrom]. apply IH.
Qed.

Lemma prefix_app (a b : string) : String.prefix a (a ++ b) = true.
Proof.
  induction a as [|x a IH]; [by destruct b|].
  rewrite app_String. cbn [String.prefix]. by destruct (ascii_dec x x).
Qed.

(** Splitting at a separator that occurs once. *)
Lemma split_two (c : ascii) (t a b : string) :
  lacks c a = true -> lacks c b = true ->
  Js.split (String c t) (a ++ String c t ++ b) = [a; b].
Proof.
  intros Ha Hb. unfold Js.split. rewrite (splitFrom_lacks c t a _ _ Ha).
  rewrite app_String. cbn [Js.splitFrom].
  rewrite <- (app_String c t b), prefix_app.
  change (String.length (String c t) - 1)%nat with (String.length t - 0)%nat.
  rewrite Nat.sub_0_r, splitFrom_skip.
  pose proof (splitFrom_lacks c t b "" "" Hb) as Hlast.
  rewrite string_app_nil_r in Hlast. by rewrite Hlast.
Qed.

Lemma removeAll_digits (s : string) :
  allDigits s = true -> Js.removeAll isBraceOrColon s = s.
Proof.
  induction s as [|c s IH]; [done|]. cbn [allDigits Js.removeAll].
  intros [Hc Hs]%andb_true_iff. rewrite (IH Hs).
  by digit_cases c Hc.
Qed.

(** X17.  A header [{period=>P, limit=>L}] written with any two natural
    numbers parses to the object whose [period] and [limit] are the
    doubles nearest to [P] and to [L], and the interval computed from
    it is the quotient, in double arithmetic, of the product of that
    period and 1000 by that limit. *)
Theorem interval_of_a_well_formed_header (P L : Z) :
  0 <= P -> 0 <= L ->
  let header :=
    "{period=>" ++ show (Some P) ++ ", limit=>" ++ show (Some L) ++ "}" in
  parse10KResponseHeader header
  = <["limit" := Js.Num (Js.ofZ L)]> {[ "period" := Js.Num (Js.ofZ P) ]}
  /\ minimumRequestIntervalMs (parse10KResponseHeader header)
     = Js.div (Js.mul (Js.ofZ P) (Js.ofZ 1000)) (Js.ofZ L).
Proof.
  intros HP HL header.
  destruct (Number_show P HP) as [HdP HnP].
  destruct (Number_show L HL) as [HdL HnL].
  assert (Hparse : parse10KResponseHeader header
            = <["limit" := Js.Num (Js.ofZ L)]>
                {[ "period" := Js.Num (Js.ofZ P) ]}).
  { subst header. unfold parse10KResponseHeader.
    set (sP := show (Some P)) in *. set (sL := show (Some L)) in *.
    change ("{period=>" ++ sP ++ ", limit=>" ++ sL ++ "}")
      with ("{" ++ ("period" ++ "=>" ++ sP) ++ ", "
            ++ ("limit" ++ "=>" ++ sL) ++ "}").
    rewrite !removeAll_app.
    rewrite (removeAll_digits sP), (removeAll_digits sL) by done.
    change (Js.removeAll isBraceOrColon "{") with "".
    change (Js.removeAll isBraceOrColon "}") with "".
    change (Js.removeAll isBraceOrColon "period") with "period".
    change (Js.removeAll isBraceOrColon "limit") with "limit".
    change (Js.removeAll isBraceOrColon "=>") with "=>".
    change (Js.removeAll isBraceOrColon ", ") with ", ".
    rewrite string_app_nil_r. change ("" ++ ?x) with x.
    assert (Hcomma : forall s, allDigits s = true -> lacks "," s = true)
      by (intros s; by apply allDigits_lacks).
    assert (Hequal : forall s, allDigits s = true -> lacks "=" s = true)
      by (intros s; by apply allDigits_lacks).
    rewrite (split_two "," " "); cycle 1.
    { rewrite !lacks_app, (Hcomma _ HdP). reflexivity. }
    { rewrite !lacks_app, (Hcomma _ HdL). reflexivity. }
    cbn [map]. rewrite !(split_two "=" ">") by auto.
    cbn [foldl]. unfold headerReducer. cbn [lookup list_lookup from_option id].
    cbn [Js.Number]. rewrite HnP, HnL.
    assert (Hnumber : forall z, Js.isNaN (Js.ofZ z) = false).
    { intros z. destruct (Js.isNaN (Js.ofZ z)) eqn:E; [|done].
      apply isNaN_true in E. exfalso. revert E. apply ofZ_not_NaN. }
    by rewrite !Hnumber. }
  split; [done|].
  rewrite Hparse. unfold minimumRequestIntervalMs, Js.get.
  rewrite lookup_insert_eq, lookup_insert_ne, lookup_singleton_eq by done.
  reflexivity.
Qed.

End HeaderNumbers.

(** A period of one second and a limit of three requests: a third of
    1000 is no double, and the interval is the double next to it. *)
Lemma interval_of_a_well_formed_header_witness :
  0 <= 1 /\ 0 <= 3
  /\ parse10KResponseHeader "{period=>1, limit=>3}"
     = <["limit" := Js.Num (Js.ofZ 3)]> {[ "period" := Js.Num (Js.ofZ 1) ]}
  /\ minimumRequestIntervalMs (parse10KResponseHeader "{period=>1, limit=>3}")
     = Js.StringToNumber "333.3333333333333".
Proof.
  assert (H1 : 0 <= 1) by lia. assert (H2 : 0 <= 3) by lia.
  split; [exact H1|]. split; [exact H2|].
  pose proof (interval_of_a_well_formed_header 1 3 H1 H2) as (Hp & Hi).
  split; [exact Hp|]. etransitivity; [exact Hi|]. vm_compute. reflexivity.
Defined.

(** ** More on dates *)

Section DateMore.

Variable host : Date.Host.

Lemma isoTo10KDate_fields (iso : string) (f : Date.fields) (t : Z) :
  Date.readFields iso = Some f -> Date.legal f = true ->
  Date.parse host iso = Some t ->
  0 <= utcTimeOfDay host f < Date.msPerDay ->
  Date.f_day f <= daysInMonth (Date.f_year f) (Date.f_month f) ->
  isoTo10KDate host iso
  = show (Some (Date.f_year f)) ++ "-" ++ show (Some (Date.f_month f - 1))
    ++ "-" ++ show (Some (Date.f_day f)).
Proof.
  intros Hf Hlegal Hparse Htime Hday.
  unfold isoTo10KDate. rewrite Hparse.
  rewrite (parse_legal host iso f t Hf Hlegal Hparse).
  cbn [Date.getUTCFullYear Date.getUTCMonth Date.getUTCDate fmap option_fmap
       option_map].
  destruct (utc_round_trip host f Hlegal Htime Hday) as (Hy & Hm & Hd).
  by rewrite Hy, Hm, Hd.
Qed.

(** X18.  The time of day of a date is dropped: two strings of the
    date-time format that read as instants and name the same calendar
    day, at times of day that stay within that day when moved to UTC,
    give the same date string, and it is the year, the month minus one
    and the day as written, without padding.  Two strings in UTC at any
    hours below 24 are such strings. *)
Theorem time_of_day_is_dropped (iso1 iso2 : string) (f1 f2 : Date.fields)
    (t1 t2 : Z) :
  Date.readFields iso1 = Some f1 -> Date.readFields iso2 = Some f2 ->
  Date.legal f1 = true -> Date.legal f2 = true ->
  Date.parse host iso1 = Some t1 -> Date.parse host iso2 = Some t2 ->
  (0 <= utcTimeOfDay host f1 < Date.msPerDay
   \/ Date.f_offset f1 = Some 0 /\ Date.f_hour f1 <= 23) ->
  (0 <= utcTimeOfDay host f2 < Date.msPerDay
   \/ Date.f_offset f2 = Some 0 /\ Date.f_hour f2 <= 23) ->
  Date.f_year f1 = Date.f_year f2 -> Date.f_month f1 = Date.f_month f2 ->
  Date.f_day f1 = Date.f_day f2 ->
  Date.f_day f1 <= daysInMonth (Date.f_year f1) (Date.f_month f1) ->
  isoTo10KDate host iso1 = isoTo10KDate host iso2
  /\ isoTo10KDate host iso1
     = show (Some (Date.f_year f1)) ++ "-" ++ show (Some (Date.f_month f1 - 1))
       ++ "-" ++ show (Some (Date.f_day f1)).
Proof.
  intros Hf1 Hf2 Hl1 Hl2 Hp1 Hp2 Hh1 Hh2 Hy Hm Hd Hday.
  assert (Ht1 : 0 <= utcTimeOfDay host f1 < Date.msPerDay).
  { destruct Hh1 as [?|[Hoffset Hhour]]; [done|]. by apply utcTimeOfDay_UTC. }
  assert (Ht2 : 0 <= utcTimeOfDay host f2 < Date.msPerDay).
  { destruct Hh2 as [?|[Hoffset Hhour]]; [done|]. by apply utcTimeOfDay_UTC. }
  rewrite (isoTo10KDate_fields iso1 f1 t1), (isoTo10KDate_fields iso2 f2 t2);
    try done.
  - by rewrite Hy, Hm, Hd.
  - by rewrite <- Hy, <- Hm, <- Hd.
Qed.

End DateMore.

Lemma time_of_day_is_dropped_witness :
  isoTo10KDate Sample.host "2020-02-29T00:00:00.000Z"
  = isoTo10KDate Sample.host "2020-02-29T22:59:59-01:00"
  /\ isoTo10KDate Sample.host "2020-02-29T00:00:00.000Z"
     = show (Some 2020) ++ "-" ++ show (Some (2 - 1)) ++ "-" ++ show (Some 29).
Proof.
  refine (time_of_day_is_dropped Sample.host
            "2020-02-29T00:00:00.000Z" "2020-02-29T22:59:59-01:00"
            (Date.Fields 2020 2 29 0 0 0 0 (Some 0))
            (Date.Fields 2020 2 29 22 59 59 0 (Some (-60)))
            1582934400000 1583020799000
            eq_refl eq_refl eq_refl eq_refl eq_refl eq_refl _ _
            eq_refl eq_refl eq_refl _).
  - right. split; [reflexivity|]. vm_compute. intros H; discriminate H.
  - left. vm_compute. split; [intros H; discriminate H|reflexivity].
  - vm_compute. intros H; discriminate H.
Defined.

Section CollectorErrors.

Variable host : Date.Host.
Variables projectId apiKey apiUrl : string.
Variables startIsoDate endIsoDate : option string.

Local Abbreviation collect :=
  (getTimeEntries host projectId apiKey apiUrl startIsoDate endIsoDate).

Lemma attempt_throws_rethrown (page : string) (acc : list TimeEntry)
    (turn : Turn) (effects : list Effect) (error : Error) :
  attempt page acc turn = (effects, Finish (Threw error)) ->
  rethrown error = true.
Proof.
  unfold attempt, onFulfilled, onError.
  destruct (outcome turn) as [response|failure]; cbn.
  - destruct (negb _); [done|]. destruct (_ !! _); [done|].
    cbn. by intros [= _ <-].
  - destruct (rethrown failure) eqn:Hfailure; [|done]. by intros [= _ <-].
Qed.

(** X19.  A rejection with status 429 is never what the collector
    throws: whatever the server answers, an error thrown by the collector
    is a rejection without response, a rejection with another status, or
    an error raised while handling a fulfilled page. *)
Theorem throttling_is_never_thrown (script : list Turn) :
  forall (page : option string) (acc : list TimeEntry) (error : Error),
    (collect script page acc).2 = Threw error ->
    rethrown error = true
    /\ forall response, error = RequestError (Some response) ->
                        status response <> 429.
Proof.
  assert (Hstatus : forall error, rethrown error = true ->
            forall response, error = RequestError (Some response) ->
                             status response <> 429).
  { intros error Hre response ->. cbn in Hre.
    apply negb_true_iff in Hre. by apply Z.eqb_neq. }
  induction script as [|turn script IH]; intros page acc error; [done|].
  rewrite collect_cons.
  destruct (attempt (default "1" page) acc turn) as [effects [c|np acc']]
    eqn:Hattempt; cbn [snd].
  - intros ->. apply attempt_throws_rethrown in Hattempt. eauto.
  - apply IH.
Qed.

End CollectorErrors.

Lemma throttling_is_never_thrown_witness :
  (Sample.collect (script Sample.broken) None []).2
  = Threw (RequestError (Some {| status := 404; error_headers := ∅ |}))
  /\ rethrown (RequestError (Some {| status := 404; error_headers := ∅ |}))
     = true.
Proof.
  assert (H : (Sample.collect (script Sample.broken) None []).2
              = Threw (RequestError
                         (Some {| status := 404; error_headers := ∅ |})))
    by reflexivity.
  split; [exact H|].
  exact (proj1 (throttling_is_never_thrown Sample.host "7" "secret" defaultApiUrl None None
                  (script Sample.broken) None [] _ H)).
Defined.
